(** * File-to-DAG pipeline of ipfs-unixfs-importer

    A shallow embedding of
    [packages/ipfs-unixfs-importer/src/dag-builder/file/index.js]
    ([buildFileBatch], [reduce]/[reducer]) and
    [packages/ipfs-unixfs-importer/src/dag-builder/file/buffer-importer.js]
    ([bufferImporter]), followed by the properties of the leaf builder,
    the batcher and the reducer.

    Conventions of the embedding.
    - A JavaScript number that holds a size, a count or a codec tag is a
      [Z]; a [Uint8Array] is a [list byte]; [undefined] is [None].
    - An [async] function is a tree of awaited store operations
      ([Async]): the tree says which operations are issued, with which
      arguments and in which order, and what is returned for every
      answer.  [run] executes a tree against a block store.
    - Objects mutated in place (the new parent's metadata during
      [links.map], the promoted leaf) are threaded explicitly.
    - The options object is a value: what [persist] may write into the
      object it is handed is not part of the embedding.
    - [it-parallel-batch] is represented by the order in which it
      delivers results; the overlap of the tasks in time is not. *)

From Stdlib Require Import ZArith List String Bool Lia.
From Stdlib Require Import Init.Byte.
Import ListNotations.

Local Open Scope Z_scope.

(** ** Data model *)

Definition bytes := list byte.

(** [buffer.length] *)
Definition byteLength (b : bytes) : Z := Z.of_nat (List.length b).

(** A thrown value / the reason of a rejected promise. *)
Definition Error := string.

(** Codec tags: [mc.RAW], [rawCodec.code] and [mc.DAG_PB]. *)
Module mc.
Definition RAW : Z := 0x55.
Definition DAG_PB : Z := 0x70.
End mc.

Module rawCodec.
Definition code : Z := 0x55.
End rawCodec.

(** A content address as the code reads it: [cid.code] is the codec tag. *)
Module CID.
Record t := create { version : Z; code : Z; multihash : bytes }.
End CID.

Record Mtime := { secs : Z; nsecs : option Z }.

Record MultihashHasher := { hasher_name : string; hasher_code : Z }.

(** Modelled from the spec: the metadata class [UnixFS] of the package
    ipfs-unixfs is not among the sources.  Per the data model it is the
    metadata object of a framed node: declared type, optional inline
    data, modification time, permission mode and the list of child
    block sizes.  The record keeps what the constructor is given;
    [blockSizes] starts empty and [addBlockSize] appends one entry.
    Serialisation ([marshal]) and the declared logical length
    ([fileSize]) are parameters of the development. *)
Module UnixFS.
Record t := mk {
  type : string;
  data : option bytes;
  mtime : option Mtime;
  mode : option Z;
  blockSizes : list Z
}.

(** [new UnixFS({ type, data, mtime, mode })] *)
Definition new (type : string) (data : option bytes)
           (mtime : option Mtime) (mode : option Z) : t :=
  mk type data mtime mode [].

(** [f.addBlockSize(size)] *)
Definition addBlockSize (f : t) (size : Z) : t :=
  mk (type f) (data f) (mtime f) (mode f) (blockSizes f ++ [size]).
End UnixFS.

(** [InProgressImportResult]: the node descriptor.  [path] and
    [unixfs] may be undefined; [single] is [false] when the property is
    unset. *)
Module Entry.
Record t := mk {
  cid : CID.t;
  path : option string;
  unixfs : option UnixFS.t;
  size : Z;
  single : bool
}.

(** [previous.single = true] *)
Definition set_single (e : t) (b : bool) : t :=
  mk (cid e) (path e) (unixfs e) (size e) b.
End Entry.

Module File.
Record t := mk {
  path : option string;
  mtime : option Mtime;
  mode : option Z;
  content : list bytes
}.
End File.

(** The options the two source files read.  The hook
    [options.bufferImporter] is passed next to the record (see
    [buildFileBatch]). *)
Module ImporterOptions.
Record t := mk {
  rawLeaves : bool;
  reduceSingleLeafToSelf : bool;
  leafType : string;
  codec : option Z;
  cidVersion : Z;
  hasher : MultihashHasher;
  onlyHash : bool;
  blockWriteConcurrency : Z
}.
End ImporterOptions.

(** The options object handed to [persist]. *)
Module PersistOptions.
Record t := mk {
  codec : option Z;
  cidVersion : Z;
  hasher : MultihashHasher;
  onlyHash : bool
}.

(** The same option bag seen as persist options:
    [persist(buffer, block, options)]. *)
Definition of_importer (o : ImporterOptions.t) : t :=
  mk (ImporterOptions.codec o) (ImporterOptions.cidVersion o)
     (ImporterOptions.hasher o) (ImporterOptions.onlyHash o).
End PersistOptions.

(** A dag-pb link [{ Name, Tsize, Hash }] and the node form given to
    [prepare]: [{ Data }] leaves [Links] undefined. *)
Record PBLink := { Name : string; Tsize : Z; Hash : CID.t }.
Record PBNode := { Data : option bytes; Links : option (list PBLink) }.

(** ** JavaScript truthiness of the values the code tests *)

Definition truthy (n : Z) : bool := negb (n =? 0).

Definition defined {A} (o : option A) : bool :=
  match o with Some _ => true | None => false end.

(** [x || 0] on a number *)
Definition orZero (n : Z) : Z := if truthy n then n else 0.

(** ** Asynchronous computations *)

(** The operations an [async] body awaits or calls on its
    collaborators. *)
Inductive Effect : Type :=
| BlockGet (cid : CID.t) (options : ImporterOptions.t)
| Persist (buffer : bytes) (opts : PersistOptions.t)
| Progress (length : Z) (path : option string).

Definition Answer (eff : Effect) : Type :=
  match eff with
  | BlockGet _ _ => bytes
  | Persist _ _ => CID.t
  | Progress _ _ => unit
  end.

Inductive Async (A : Type) : Type :=
| Resolve (a : A)
| Reject (e : Error)
| Await (eff : Effect) (k : Answer eff -> Async A).

Arguments Resolve {A} a.
Arguments Reject {A} e.
Arguments Await {A} eff k.

Fixpoint bind {A B} (m : Async A) (f : A -> Async B) : Async B :=
  match m with
  | Resolve a => f a
  | Reject e => Reject e
  | Await eff k => Await eff (fun r => bind (k r) f)
  end.

Declare Scope async_scope.
Delimit Scope async_scope with async.
Notation "x <- m ;; k" := (bind m (fun x => k))
  (at level 61, m at next level, right associativity) : async_scope.
Local Open Scope async_scope.

Definition perform (eff : Effect) : Async (Answer eff) :=
  Await eff (fun r => Resolve r).

(** A synchronous call that may throw. *)
Definition trySync {A} (r : Error + A) : Async A :=
  match r with
  | inl e => Reject e
  | inr a => Resolve a
  end.

(** [block.get(cid, options)], destructured to its [bytes]. *)
Definition block_get (cid : CID.t) (options : ImporterOptions.t) : Async bytes :=
  perform (BlockGet cid options).

(** [persist(buffer, block, opts)] *)
Definition persist (buffer : bytes) (opts : PersistOptions.t) : Async CID.t :=
  perform (Persist buffer opts).

(** [options.progress(length, path)] *)
Definition progress (length : Z) (path : option string) : Async unit :=
  perform (Progress length path).

(** Running a computation against a store of type [S]: the handler
    answers each operation or fails; a failure rejects the whole
    computation, as an awaited rejection does in a body without
    [try]/[catch]. *)
Section Run.
Context {S : Type}.
Variable handle : forall eff : Effect, S -> Error + (Answer eff * S).

Fixpoint run {A} (m : Async A) (s : S) : Error + (A * S) :=
  match m with
  | Resolve a => inr (a, s)
  | Reject e => inl e
  | Await eff k =>
      match handle eff s with
      | inl e => inl e
      | inr (r, s') => run (k r) s'
      end
  end.
End Run.

(** [it-parallel-batch]: the tasks are started in batches of [size] and
    their results are delivered one by one in task order; the embedding
    keeps the order of the results and runs the tasks one after the
    other. *)
Fixpoint parallelBatch {A} (tasks : list (Async A)) (size : Z) : Async (list A) :=
  match tasks with
  | [] => Resolve []
  | task :: rest =>
      r <- task ;;
      rs <- parallelBatch rest size ;;
      Resolve (r :: rs)
  end.

(** The operations a run performs, in order, next to its outcome; an
    operation that the store refuses is still one that was attempted. *)
Section RunLog.
Context {S : Type}.
Variable handle : forall eff : Effect, S -> Error + (Answer eff * S).

Fixpoint runLog {A} (m : Async A) (s : S) : list Effect * (Error + (A * S)) :=
  match m with
  | Resolve a => ([], inr (a, s))
  | Reject e => ([], inl e)
  | Await eff k =>
      match handle eff s with
      | inl e => ([eff], inl e)
      | inr (r, s') =>
          let '(log, outcome) := runLog (k r) s' in
          (eff :: log, outcome)
      end
  end.
End RunLog.

(** The progress reports of a log: [(length, path)] per call of
    [options.progress]. *)
Definition reportsOf (log : list Effect) : list (Z * option string) :=
  flat_map (fun eff => match eff with
                       | Progress length path => [(length, path)]
                       | _ => []
                       end) log.

(** The calls of [persist] of a log: the buffer and the options of
    each. *)
Definition persistsOf (log : list Effect) : list (bytes * PersistOptions.t) :=
  flat_map (fun eff => match eff with
                       | Persist buffer opts => [(buffer, opts)]
                       | _ => []
                       end) log.

(** The reads of the store of a log. *)
Definition getsOf (log : list Effect) : list CID.t :=
  flat_map (fun eff => match eff with
                       | BlockGet cid _ => [cid]
                       | _ => []
                       end) log.

(** ** Sample collaborators

    Concrete serialisers and stores, used to run the pipeline on
    concrete inputs. *)

(** The declared logical length as ipfs-unixfs computes it for a file:
    the recorded block sizes plus the inline data. *)
Definition sample_fileSize (u : UnixFS.t) : Z :=
  fold_right Z.add 0 (UnixFS.blockSizes u)
  + match UnixFS.data u with Some d => byteLength d | None => 0 end.

(** A serialiser of metadata: one header byte, then the inline data. *)
Definition sample_marshal (u : UnixFS.t) : Error + bytes :=
  inr (x08 :: match UnixFS.data u with Some d => d | None => [] end).

(** A serialiser of nodes: one byte per link, then the data. *)
Definition sample_encode (node : PBNode) : Error + bytes :=
  inr (map (fun _ => x12) (match Links node with Some ls => ls | None => [] end)
       ++ match Data node with Some d => d | None => [] end).

(** A store that keeps the persisted blocks in a list and addresses a
    block by its own bytes. *)
Definition sample_store : forall eff : Effect, list bytes -> Error + (Answer eff * list bytes) :=
  fun eff =>
    match eff return list bytes -> Error + (Answer eff * list bytes) with
    | BlockGet cid _ => fun s => inr (CID.multihash cid, s)
    | Persist buffer opts => fun s =>
        let codec := match PersistOptions.codec opts with
                     | Some c => c
                     | None => mc.DAG_PB
                     end in
        inr (CID.create (PersistOptions.cidVersion opts) codec buffer,
             if PersistOptions.onlyHash opts then s else buffer :: s)
    | Progress _ _ => fun s => inr (tt, s)
    end.

(** A store whose writes are refused. *)
Definition failing_store : forall eff : Effect, list bytes -> Error + (Answer eff * list bytes) :=
  fun eff =>
    match eff return list bytes -> Error + (Answer eff * list bytes) with
    | BlockGet cid _ => fun s => inr (CID.multihash cid, s)
    | Persist _ _ => fun _ => inl "StoreError"%string
    | Progress _ _ => fun s => inr (tt, s)
    end.

Definition sha256 : MultihashHasher :=
  {| hasher_name := "sha2-256"; hasher_code := 0x12 |}.

Definition sample_options : ImporterOptions.t :=
  ImporterOptions.mk false true "file" None 0 sha256 false 10.

Definition sample_file : File.t :=
  File.mk (Some "a.txt"%string) None None [[x61; x62; x63]; [x64; x65; x66; x67]].

(** Sample children of a reduction: a bare leaf of three bytes, an
    empty bare placeholder, a framed leaf with four bytes of inline
    data, and the root of a subtree whose metadata records the block
    sizes 3 and 4. *)
Definition bare_leaf : Entry.t :=
  Entry.mk (CID.create 1 mc.RAW [x61; x62; x63]) None None 3 false.

Definition phantom_leaf : Entry.t :=
  Entry.mk (CID.create 1 mc.RAW []) None None 0 false.

Definition framed_leaf : Entry.t :=
  Entry.mk (CID.create 0 mc.DAG_PB [x08; x64; x65; x66; x67]) None
    (Some (UnixFS.mk "file" (Some [x64; x65; x66; x67]) None None []))
    10 false.

Definition subtree : Entry.t :=
  Entry.mk (CID.create 0 mc.DAG_PB [x12; x12; x08]) None
    (Some (UnixFS.mk "file" None None None [3; 4]))
    120 false.

Definition sample_children : list Entry.t :=
  [bare_leaf; phantom_leaf; framed_leaf; subtree].

(** A file that declares a modification time, and sole leaves marked
    single. *)
Definition dated_file : File.t :=
  File.mk (Some "b.txt"%string) (Some {| secs := 1600000000; nsecs := None |})
    None [[x78]].

Definition single_bare : Entry.t :=
  Entry.mk (CID.create 1 mc.RAW [x78]) None None 1 true.

Definition single_framed : Entry.t :=
  Entry.mk (CID.create 0 mc.DAG_PB [x08; x78]) None
    (Some (UnixFS.mk "file" (Some [x78]) None None [])) 2 true.

(** A sole child that claims metadata while its length fields are
    negative. *)
Definition inconsistent_leaf : Entry.t :=
  Entry.mk (CID.create 0 mc.DAG_PB [x00]) None
    (Some (UnixFS.mk "file" None None None [-5])) (-1) true.

(** Options that ask for framed leaves of declared type raw. *)
Definition raw_type_options : ImporterOptions.t :=
  ImporterOptions.mk false true "raw" None 0 sha256 false 10.

(** Options that ask for bare leaves, with address version 0
    configured. *)
Definition raw_leaves_options : ImporterOptions.t :=
  ImporterOptions.mk true true "file" None 0 sha256 false 10.

(** A custom buffer importer whose results already carry the single
    flag. *)
Definition flagging_importer (file : File.t) (options : ImporterOptions.t)
  : list (Async Entry.t) :=
  map (fun chunk =>
         Resolve (Entry.mk (CID.create 1 mc.RAW chunk) None None
                    (byteLength chunk) true))
      (File.content file).

(** A file of one chunk that declares neither mtime nor mode, and a
    file without chunks. *)
Definition tiny_file : File.t :=
  File.mk (Some "c.txt"%string) None None [[x78]].

Definition empty_file : File.t :=
  File.mk (Some "d.txt"%string) None None [].

(** ** The pipeline *)

(** The generator's local variables in [buildFileBatch]. *)
Record BatchState := { count : Z; previous : option Entry.t }.

(** What a call of the reducer leaves behind: the descriptor it
    returns and the caller's [leaves] array after the call (the
    promoted leaf is updated in place). *)
Record Reduced := { returned : Entry.t; leaves_after : list Entry.t }.

(** [FileDAGBuilder]: a tree strategy takes the batcher's output, the
    reducer and the options, and resolves to the root descriptor. *)
Definition FileDAGBuilder : Type :=
  Async (list Entry.t) -> (list Entry.t -> Async Reduced) ->
  ImporterOptions.t -> Async Entry.t.

(** An error made by [errCode(new Error(message), code)]. *)
Record CodedError := { err_message : string; err_code : string }.

(** What [dagBuilders[key]] finds: one of the three builders of the
    object literal, a property inherited from [Object.prototype], or
    nothing. *)
Inductive Property : Type :=
| Own (builder : FileDAGBuilder)
| Inherited
| Absent.

(** The property names every object literal inherits. *)
Definition objectPrototypeKeys : list string :=
  ["constructor"; "__defineGetter__"; "__defineSetter__"; "hasOwnProperty";
   "__lookupGetter__"; "__lookupSetter__"; "isPrototypeOf";
   "propertyIsEnumerable"; "toString"; "valueOf"; "__proto__";
   "toLocaleString"]%string.

(** What a call of [fileBuilder] does: it throws, it returns the
    promise of a builder, or it calls an inherited property as if it
    were a builder (which the embedding does not follow). *)
Inductive Built : Type :=
| Thrown (e : CodedError)
| Returned (promise : Async Entry.t)
| CalledInherited.

(** A sample strategy that reduces all the leaves in one call. *)
Definition sample_builder : FileDAGBuilder :=
  fun source reduce _ =>
    leaves <- source ;;
    reduced <- reduce leaves ;;
    Resolve (returned reduced).

Section Pipeline.

(** The serialisers, which are outside the two source files:
    [unixfs.marshal()], [unixfs.fileSize()] and
    [encode(prepare(node))] of @ipld/dag-pb.  Both serialisers may
    throw. *)
Variable marshal : UnixFS.t -> Error + bytes.
Variable fileSize : UnixFS.t -> Z.
Variable encode_prepare : PBNode -> Error + bytes.

(** *** buffer-importer.js *)

(** The persist options built by one task (lines 26-36). *)
Definition leafOpts (options : ImporterOptions.t) : PersistOptions.t :=
  let opts := PersistOptions.mk (Some mc.DAG_PB)
                (ImporterOptions.cidVersion options)
                (ImporterOptions.hasher options)
                (ImporterOptions.onlyHash options) in
  if ImporterOptions.rawLeaves options
  then PersistOptions.mk (Some mc.RAW) 1
         (PersistOptions.hasher opts) (PersistOptions.onlyHash opts)
  else opts.

(** The deferred task yielded for one chunk. *)
Definition leafTask (file : File.t) (options : ImporterOptions.t)
           (buffer : bytes) : Async Entry.t :=
  _ <- progress (byteLength buffer) (File.path file) ;;
  let opts := leafOpts options in
  if ImporterOptions.rawLeaves options then
    cid <- persist buffer opts ;;
    Resolve (Entry.mk cid None None (byteLength buffer) false)
  else
    let unixfs := UnixFS.new (ImporterOptions.leafType options) (Some buffer)
                    (File.mtime file) (File.mode file) in
    data <- trySync (marshal unixfs) ;;
    buffer <- trySync (encode_prepare {| Data := Some data; Links := None |}) ;;
    cid <- persist buffer opts ;;
    Resolve (Entry.mk cid None (Some unixfs) (byteLength buffer) false).

Definition bufferImporter (file : File.t) (options : ImporterOptions.t)
  : list (Async Entry.t) :=
  map (leafTask file options) (File.content file).

(** *** index.js: buildFileBatch *)

Definition batchInit : BatchState := {| count := -1; previous := None |}.

(** One iteration of the [for await] loop: the new state and what the
    iteration yields. *)
Definition batchStep (st : BatchState) (entry : Entry.t)
  : BatchState * list Entry.t :=
  let count := count st + 1 in
  if count =? 0 then
    ({| count := count; previous := Some entry |}, [])
  else
    match count =? 1, previous st with
    | true, Some previous =>
        ({| count := count; previous := None |}, [previous; entry])
    | _, _ =>
        ({| count := count; previous := previous st |}, [entry])
    end.

(** The loop over the delivered results, accumulating the yields. *)
Fixpoint batchLoop (st : BatchState) (entries : list Entry.t)
  : BatchState * list Entry.t :=
  match entries with
  | [] => (st, [])
  | entry :: rest =>
      let '(st1, out1) := batchStep st entry in
      let '(st2, out2) := batchLoop st1 rest in
      (st2, out1 ++ out2)
  end.

(** After the loop: [if (previous) { previous.single = true; yield previous }] *)
Definition batchFinish (st : BatchState) : list Entry.t :=
  match previous st with
  | Some previous => [Entry.set_single previous true]
  | None => []
  end.

(** Everything the generator yields when the results [entries] are
    delivered and the sequence then ends. *)
Definition batchYields (entries : list Entry.t) : list Entry.t :=
  let '(st, out) := batchLoop batchInit entries in
  out ++ batchFinish st.

(** What has been yielded once the results [entries] have been
    delivered and the generator waits for the next one. *)
Definition batchYieldedSoFar (entries : list Entry.t) : list Entry.t :=
  snd (batchLoop batchInit entries).

Definition BufferImporter : Type :=
  File.t -> ImporterOptions.t -> list (Async Entry.t).

(** [hook] is [options.bufferImporter] when it is a function. *)
Definition buildFileBatch (hook : option BufferImporter) (file : File.t)
           (options : ImporterOptions.t) : Async (list Entry.t) :=
  let bufferImporter :=
    match hook with
    | Some f => f
    | None => bufferImporter
    end in
  entries <- parallelBatch (bufferImporter file options)
               (ImporterOptions.blockWriteConcurrency options) ;;
  Resolve (batchYields entries).

(** *** index.js: reduce *)

(** The predicate of [leaves.filter] (lines 136-146). *)
Definition linkFilter (leaf : Entry.t) : bool :=
  if (CID.code (Entry.cid leaf) =? rawCodec.code) && truthy (Entry.size leaf)
  then true
  else if match Entry.unixfs leaf with
          | Some u => negb (defined (UnixFS.data u)) && truthy (fileSize u)
          | None => false
          end
  then true
  else match Entry.unixfs leaf with
       | Some u =>
           match UnixFS.data u with
           | Some d => truthy (byteLength d)
           | None => false
           end
       | None => false
       end.

Definition linkOf (leaf : Entry.t) : PBLink :=
  {| Name := EmptyString; Tsize := Entry.size leaf; Hash := Entry.cid leaf |}.

(** The callback of [.map] (lines 147-172): it records a block size
    in the parent metadata [f] and returns the link. *)
Definition linkMap (f : UnixFS.t) (leaf : Entry.t) : UnixFS.t * PBLink :=
  if CID.code (Entry.cid leaf) =? rawCodec.code then
    (UnixFS.addBlockSize f (Entry.size leaf), linkOf leaf)
  else
    match Entry.unixfs leaf with
    | None => (UnixFS.addBlockSize f 0, linkOf leaf)
    | Some u =>
        match UnixFS.data u with
        | None => (UnixFS.addBlockSize f (orZero (fileSize u)), linkOf leaf)
        | Some d => (UnixFS.addBlockSize f (byteLength d), linkOf leaf)
        end
    end.

(** [Array.prototype.map] with a callback that updates [f]. *)
Fixpoint mapLinks (f : UnixFS.t) (leaves : list Entry.t)
  : UnixFS.t * list PBLink :=
  match leaves with
  | [] => (f, [])
  | leaf :: rest =>
      let '(f1, link) := linkMap f leaf in
      let '(f2, links) := mapLinks f1 rest in
      (f2, link :: links)
  end.

(** [node.Links.reduce((acc, curr) => acc + curr.Tsize, 0)] *)
Definition sumTsize (links : list PBLink) : Z :=
  fold_left (fun acc curr => acc + Tsize curr) links 0.

(** The test of line 75: the sole leaf when the single-leaf path is
    taken. *)
Definition singleLeaf (options : ImporterOptions.t) (leaves : list Entry.t)
  : option Entry.t :=
  match leaves with
  | [leaf] =>
      if Entry.single leaf && ImporterOptions.reduceSingleLeafToSelf options
      then Some leaf else None
  | _ => None
  end.

Definition reducer (file : File.t) (options : ImporterOptions.t)
           (leaves : list Entry.t) : Async Reduced :=
  match singleLeaf options leaves with
  | Some leaf =>
      (* lines 120-125, reached with the leaf as the [if] block leaves it *)
      let finish (leaf : Entry.t) : Async Reduced :=
        Resolve {| returned := Entry.mk (Entry.cid leaf) (File.path file)
                                 (Entry.unixfs leaf) (Entry.size leaf) false;
                   leaves_after := [leaf] |} in
      if (CID.code (Entry.cid leaf) =? rawCodec.code)
         && (defined (File.mtime file) || defined (File.mode file))
      then
        buffer <- block_get (Entry.cid leaf) options ;;
        let unixfs := UnixFS.new "file" (Some buffer)
                        (File.mtime file) (File.mode file) in
        data <- trySync (marshal unixfs) ;;
        buffer <- trySync (encode_prepare {| Data := Some data; Links := None |}) ;;
        cid <- persist buffer
                 (PersistOptions.mk (Some mc.DAG_PB)
                    (ImporterOptions.cidVersion options)
                    (ImporterOptions.hasher options)
                    (ImporterOptions.onlyHash options)) ;;
        finish (Entry.mk cid (Entry.path leaf) (Some unixfs)
                  (byteLength buffer) (Entry.single leaf))
      else finish leaf
  | None =>
      let f := UnixFS.new "file" None (File.mtime file) (File.mode file) in
      let '(f, links) := mapLinks f (filter linkFilter leaves) in
      data <- trySync (marshal f) ;;
      buffer <- trySync (encode_prepare {| Data := Some data; Links := Some links |}) ;;
      cid <- persist buffer (PersistOptions.of_importer options) ;;
      Resolve {| returned := Entry.mk cid (File.path file) (Some f)
                               (byteLength buffer + sumTsize links) false;
                 leaves_after := leaves |}
  end.

(** ** Vocabulary of the specification *)

(** A bare leaf is one addressed under the raw codec. *)
Definition isBare (child : Entry.t) : bool :=
  CID.code (Entry.cid child) =? rawCodec.code.

(** The three ways in which a child contributes real content. *)
Definition contributesContent (child : Entry.t) : Prop :=
  (isBare child = true /\ Entry.size child <> 0)
  \/ (exists meta, Entry.unixfs child = Some meta
                   /\ UnixFS.data meta = None /\ fileSize meta <> 0)
  \/ (exists meta inline, Entry.unixfs child = Some meta
                   /\ UnixFS.data meta = Some inline /\ inline <> []).

(** The children a reduction retains, in input order. *)
Definition retained (children : list Entry.t) : list Entry.t :=
  filter linkFilter children.

(** The logical contribution of a child to its parent's block-size
    list: the physical size of a bare leaf, the declared logical length
    of a framed node without inline data (0 without metadata), the
    length of the inline data of a framed leaf. *)
Definition logicalContribution (child : Entry.t) : Z :=
  if isBare child then Entry.size child
  else match Entry.unixfs child with
       | None => 0
       | Some meta =>
           match UnixFS.data meta with
           | None => fileSize meta
           | Some inline => byteLength inline
           end
       end.

(** The sum of the physical sizes of a list of children. *)
Definition sumSizes (children : list Entry.t) : Z :=
  fold_right (fun child acc => Entry.size child + acc) 0 children.

(** The metadata of a freshly built parent with the given block-size
    list. *)
Definition parentMeta (file : File.t) (sizes : list Z) : UnixFS.t :=
  UnixFS.mk "file" None (File.mtime file) (File.mode file) sizes.

(** Building a parent: serialise the metadata and the links, persist
    the bytes with the caller's options and return the descriptor of
    the new node, whose size is the length of those bytes plus
    [childrenSize]. *)
Definition buildParent (file : File.t) (options : ImporterOptions.t)
           (leaves : list Entry.t) (meta : UnixFS.t) (links : list PBLink)
           (childrenSize : Z) : Async Reduced :=
  data <- trySync (marshal meta) ;;
  buffer <- trySync (encode_prepare {| Data := Some data; Links := Some links |}) ;;
  cid <- persist buffer (PersistOptions.of_importer options) ;;
  Resolve {| returned := Entry.mk cid (File.path file) (Some meta)
                           (byteLength buffer + childrenSize) false;
             leaves_after := leaves |}.

(** An operation issued by a computation, for some answers of the
    store to the operations before it. *)
Fixpoint Issues {A} (m : Async A) (wanted : Effect) : Prop :=
  match m with
  | Resolve _ => False
  | Reject _ => False
  | Await eff k => eff = wanted \/ exists r, Issues (k r) wanted
  end.

(** The general path is taken when there are no children or two or
    more, when the only child is not marked single, or when the
    single-leaf optimisation is disabled. *)
Definition generalPath (options : ImporterOptions.t) (leaves : list Entry.t) : Prop :=
  List.length leaves <> 1%nat
  \/ (exists leaf, leaves = [leaf] /\ Entry.single leaf = false)
  \/ ImporterOptions.reduceSingleLeafToSelf options = false.

(** An error raised by a collaborator: a store operation that the
    handler refuses, or a serialiser that throws. *)
Definition collaboratorFailure {S : Type}
           (handle : forall eff : Effect, S -> Error + (Answer eff * S))
           (e : Error) : Prop :=
  (exists eff s, handle eff s = inl e)
  \/ (exists meta, marshal meta = inl e)
  \/ (exists node, encode_prepare node = inl e).

(** *** index.js: fileBuilder *)

(** The three strategy modules, which are outside the two source
    files. *)
Variable flat : FileDAGBuilder.
Variable balanced : FileDAGBuilder.
Variable trickle : FileDAGBuilder.

(** [dagBuilders[key]] (lines 23-27 and 196). *)
Definition dagBuilders (key : string) : Property :=
  if (key =? "flat")%string then Own flat
  else if (key =? "balanced")%string then Own balanced
  else if (key =? "trickle")%string then Own trickle
  else if existsb (String.eqb key) objectPrototypeKeys then Inherited
  else Absent.

(** [strategy] is [options.strategy] and [hook] is
    [options.bufferImporter], both passed next to the record. *)
Definition fileBuilder (strategy : string) (hook : option BufferImporter)
           (file : File.t) (options : ImporterOptions.t) : Built :=
  match dagBuilders strategy with
  | Absent =>
      Thrown {| err_message :=
                  ("Unknown importer build strategy name: " ++ strategy)%string;
                err_code := "ERR_BAD_STRATEGY" |}
  | Inherited => CalledInherited
  | Own dagBuilder =>
      Returned (dagBuilder (buildFileBatch hook file options)
                  (reducer file options) options)
  end.

(** ** More vocabulary *)

(** The batcher's whole output reduced in one call, as a strategy does
    with a group that holds every leaf. *)
Definition batchThenReduce (hook : option BufferImporter) (file : File.t)
           (options : ImporterOptions.t) : Async Reduced :=
  yields <- buildFileBatch hook file options ;;
  reducer file options yields.

(** A store whose [persist], asked for a codec, answers with an
    address under that codec. *)
Definition honoursCodec {S : Type}
           (handle : forall eff : Effect, S -> Error + (Answer eff * S)) : Prop :=
  forall buffer opts st cid st' codec,
    handle (Persist buffer opts) st = inr (cid, st') ->
    PersistOptions.codec opts = Some codec ->
    CID.code cid = codec.

(** The sum of a list of numbers. *)
Definition total (sizes : list Z) : Z := fold_right Z.add 0 sizes.

(** What the built-in leaf builder makes of a chunk when the store
    honours the codec: a bare leaf under the raw codec, of the chunk's
    size and without metadata, or a framed leaf under dag-pb whose
    metadata holds the chunk with the file's mtime and mode. *)
Definition leafOf (file : File.t) (options : ImporterOptions.t)
           (chunk : bytes) (entry : Entry.t) : Prop :=
  if ImporterOptions.rawLeaves options
  then Entry.unixfs entry = None
       /\ Entry.size entry = byteLength chunk
       /\ CID.code (Entry.cid entry) = mc.RAW
  else Entry.unixfs entry
       = Some (UnixFS.mk (ImporterOptions.leafType options) (Some chunk)
                 (File.mtime file) (File.mode file) [])
       /\ CID.code (Entry.cid entry) = mc.DAG_PB.

(** ** Auxiliary facts *)

Lemma orZero_id (n : Z) : orZero n = n.
Proof.
  unfold orZero, truthy. destruct (Z.eqb_spec n 0); simpl; congruence.
Qed.

Lemma truthy_true (n : Z) : truthy n = true <-> n <> 0.
Proof.
  unfold truthy. destruct (Z.eqb_spec n 0); simpl; split; congruence.
Qed.

Lemma byteLength_truthy (b : bytes) : truthy (byteLength b) = true <-> b <> [].
Proof.
  rewrite truthy_true. unfold byteLength.
  destruct b; simpl; split; intros H; try congruence; lia.
Qed.

Lemma linkMap_contribution (f : UnixFS.t) (leaf : Entry.t) :
  linkMap f leaf = (UnixFS.addBlockSize f (logicalContribution leaf), linkOf leaf).
Proof.
  unfold linkMap, logicalContribution, isBare.
  destruct (CID.code (Entry.cid leaf) =? rawCodec.code); [reflexivity|].
  destruct (Entry.unixfs leaf) as [u|]; [|reflexivity].
  destruct (UnixFS.data u); [reflexivity|].
  now rewrite orZero_id.
Qed.

Lemma mapLinks_accumulates (children : list Entry.t) : forall f,
  mapLinks f children =
    (UnixFS.mk (UnixFS.type f) (UnixFS.data f) (UnixFS.mtime f) (UnixFS.mode f)
       (UnixFS.blockSizes f ++ map logicalContribution children),
     map linkOf children).
Proof.
  induction children as [|child rest IH]; intros f; simpl.
  - rewrite app_nil_r. now destruct f.
  - rewrite linkMap_contribution, IH. simpl.
    now rewrite <- app_assoc.
Qed.

Lemma fold_Tsize (children : list Entry.t) : forall acc,
  fold_left (fun acc curr => acc + Tsize curr) (map linkOf children) acc
  = acc + sumSizes children.
Proof.
  induction children as [|child rest IH]; intros acc; simpl.
  - lia.
  - rewrite IH. simpl. lia.
Qed.

Lemma sumTsize_links (children : list Entry.t) :
  sumTsize (map linkOf children) = sumSizes children.
Proof. unfold sumTsize. now rewrite fold_Tsize. Qed.

(** The general path of the reducer, in one equation. *)
Lemma reducer_general (file : File.t) (options : ImporterOptions.t)
      (leaves : list Entry.t) :
  singleLeaf options leaves = None ->
  reducer file options leaves =
    buildParent file options leaves
      (parentMeta file (map logicalContribution (retained leaves)))
      (map linkOf (retained leaves))
      (sumSizes (retained leaves)).
Proof.
  intros Hgeneral. unfold reducer. rewrite Hgeneral.
  rewrite mapLinks_accumulates. simpl.
  rewrite sumTsize_links. reflexivity.
Qed.

Lemma linkFilter_contributes (child : Entry.t) :
  linkFilter child = true <-> contributesContent child.
Proof.
  unfold linkFilter, contributesContent, isBare.
  destruct (CID.code (Entry.cid child) =? rawCodec.code) eqn:Hraw; simpl.
  - destruct (truthy (Entry.size child)) eqn:Hsize.
    + split; [|reflexivity]. intros _. left. split; [reflexivity|].
      now apply truthy_true.
    + assert (Hzero : ~ Entry.size child <> 0)
        by (rewrite <- truthy_true; congruence).
      destruct (Entry.unixfs child) as [u|].
      * destruct (UnixFS.data u) as [d|] eqn:Hdata; simpl.
        -- rewrite byteLength_truthy. split.
           ++ intros Hd. right. right. now exists u, d.
           ++ intros [[_ H]|[(m & Hm & Hn & _)|(m & i & Hm & Hi & Hne)]].
              ** contradiction.
              ** congruence.
              ** congruence.
        -- destruct (truthy (fileSize u)) eqn:Hfs.
           ++ split; [|reflexivity]. intros _. right. left.
              exists u. repeat split; trivial. now apply truthy_true.
           ++ split; [discriminate|].
              intros [[_ H]|[(m & Hm & _ & Hn)|(m & i & Hm & Hi & _)]].
              ** contradiction.
              ** injection Hm as <-. apply truthy_true in Hn. congruence.
              ** congruence.
      * split; [discriminate|].
        intros [[_ H]|[(m & Hm & _)|(m & i & Hm & _)]];
          [contradiction|discriminate|discriminate].
  - destruct (Entry.unixfs child) as [u|].
    + destruct (UnixFS.data u) as [d|] eqn:Hdata; simpl.
      * rewrite byteLength_truthy. split.
        -- intros Hd. right. right. now exists u, d.
        -- intros [[H _]|[(m & Hm & Hn & _)|(m & i & Hm & Hi & Hne)]];
             [discriminate|congruence|congruence].
      * destruct (truthy (fileSize u)) eqn:Hfs.
        -- split; [|reflexivity]. intros _. right. left.
           exists u. repeat split; trivial. now apply truthy_true.
        -- split; [discriminate|].
           intros [[H _]|[(m & Hm & _ & Hn)|(m & i & Hm & Hi & _)]].
           ++ discriminate.
           ++ injection Hm as <-. apply truthy_true in Hn. congruence.
           ++ congruence.
    + split; [discriminate|].
      intros [[H _]|[(m & Hm & _)|(m & i & Hm & _)]]; discriminate.
Qed.


Lemma generalPath_singleLeaf (options : ImporterOptions.t) (leaves : list Entry.t) :
  generalPath options leaves <-> singleLeaf options leaves = None.
Proof.
  unfold generalPath, singleLeaf.
  destruct leaves as [|leaf [|second rest]]; simpl.
  - split; [reflexivity|]. intros _. left. discriminate.
  - destruct (Entry.single leaf) eqn:Hsingle,
             (ImporterOptions.reduceSingleLeafToSelf options) eqn:Hopt; simpl;
      split; try reflexivity; try discriminate.
    + intros [H|[(l & Hl & Hs)|H]]; [now elim H| |discriminate].
      injection Hl as <-. congruence.
    + intros _. now right; right.
    + intros _. right. left. now exists leaf.
    + intros _. now right; right.
  - split; [reflexivity|]. intros _. left. discriminate.
Qed.

Lemma retained_cons_kept (child : Entry.t) (rest : list Entry.t) :
  contributesContent child -> retained (child :: rest) = child :: retained rest.
Proof.
  intros H. apply linkFilter_contributes in H.
  unfold retained. simpl. now rewrite H.
Qed.

Lemma retained_cons_dropped (child : Entry.t) (rest : list Entry.t) :
  ~ contributesContent child -> retained (child :: rest) = retained rest.
Proof.
  intros H. rewrite <- linkFilter_contributes in H.
  unfold retained. simpl. destruct (linkFilter child); congruence.
Qed.

Lemma retained_app (before after : list Entry.t) :
  retained (before ++ after) = retained before ++ retained after.
Proof. unfold retained. apply filter_app. Qed.

(** ** The reducer: general path *)

(** C1. On the general path the reducer serialises and persists one new
    parent node and returns a descriptor whose [size] is the length of
    the serialised parent plus the sum of the [size] fields of the
    retained children; a child that the filter drops adds nothing to
    that sum, wherever it stands in the input. *)
Theorem reducer_size_invariant (file : File.t) (options : ImporterOptions.t)
        (leaves : list Entry.t) :
  generalPath options leaves ->
  reducer file options leaves =
    buildParent file options leaves
      (parentMeta file (map logicalContribution (retained leaves)))
      (map linkOf (retained leaves))
      (sumSizes (retained leaves))
  /\ (forall before dropped after,
        linkFilter dropped = false ->
        sumSizes (retained (before ++ dropped :: after))
        = sumSizes (retained (before ++ after))).
Proof.
  intros Hgeneral. apply generalPath_singleLeaf in Hgeneral.
  split; [now apply reducer_general|].
  intros before dropped after Hdrop.
  rewrite !retained_app. unfold retained at 2. simpl.
  now rewrite Hdrop.
Qed.

(** C4. On the general path a child is retained exactly when it
    contributes content: a bare leaf of nonzero size, a framed node
    without inline data and with a nonzero declared logical length, or
    a framed leaf with nonempty inline data.  The link list, the
    block-size list and the children's share of [size] are all taken
    over the retained children only, position by position. *)
Theorem reducer_retains_contributing_children (file : File.t)
        (options : ImporterOptions.t) (leaves : list Entry.t) :
  generalPath options leaves ->
  reducer file options leaves =
    buildParent file options leaves
      (parentMeta file (map logicalContribution (retained leaves)))
      (map linkOf (retained leaves))
      (sumSizes (retained leaves))
  /\ retained [] = []
  /\ (forall child rest, contributesContent child ->
        retained (child :: rest) = child :: retained rest)
  /\ (forall child rest, ~ contributesContent child ->
        retained (child :: rest) = retained rest)
  /\ (forall child, In child (retained leaves) <->
        In child leaves /\ contributesContent child).
Proof.
  intros Hgeneral. apply generalPath_singleLeaf in Hgeneral.
  split; [now apply reducer_general|].
  split; [reflexivity|].
  split; [apply retained_cons_kept|].
  split; [apply retained_cons_dropped|].
  intros child. unfold retained. rewrite filter_In.
  now rewrite linkFilter_contributes.
Qed.

(** C5. On the general path the parent's block-size list holds, for
    each retained child and in input order, the child's logical
    contribution (the physical size of a bare leaf, the declared
    logical length of a framed node without inline data, the length of
    the inline data of a framed leaf), and the link list holds, in the
    same order, links whose [Tsize] is the child's full physical
    [size]. *)
Theorem reducer_block_sizes_and_links (file : File.t)
        (options : ImporterOptions.t) (leaves : list Entry.t) :
  generalPath options leaves ->
  (exists meta links,
      reducer file options leaves =
        buildParent file options leaves meta links (sumSizes (retained leaves))
      /\ UnixFS.blockSizes meta = map logicalContribution (retained leaves)
      /\ links = map linkOf (retained leaves))
  /\ (forall child,
        Tsize (linkOf child) = Entry.size child
        /\ Hash (linkOf child) = Entry.cid child
        /\ Name (linkOf child) = EmptyString)
  /\ (forall child, isBare child = true ->
        logicalContribution child = Entry.size child)
  /\ (forall child meta, isBare child = false ->
        Entry.unixfs child = Some meta -> UnixFS.data meta = None ->
        logicalContribution child = fileSize meta)
  /\ (forall child, isBare child = false -> Entry.unixfs child = None ->
        logicalContribution child = 0)
  /\ (forall child meta inline, isBare child = false ->
        Entry.unixfs child = Some meta -> UnixFS.data meta = Some inline ->
        logicalContribution child = byteLength inline)
  /\ (forall before after,
        retained (before ++ after) = retained before ++ retained after)
  /\ (Forall contributesContent leaves -> retained leaves = leaves).
Proof.
  intros Hgeneral. apply generalPath_singleLeaf in Hgeneral.
  split.
  { eexists _, _. split; [now apply reducer_general|]. split; reflexivity. }
  split; [intros child; repeat split|].
  unfold logicalContribution.
  split; [now intros child ->|].
  split; [now intros child meta -> -> ->|].
  split; [now intros child -> ->|].
  split; [now intros child meta inline -> -> ->|].
  split; [apply retained_app|].
  intros Hall. clear Hgeneral.
  induction Hall as [|child rest Hchild _ IH]; [reflexivity|].
  rewrite retained_cons_kept by assumption. now rewrite IH.
Qed.

Lemma run_bind {S A B} (handle : forall eff : Effect, S -> Error + (Answer eff * S))
      (m : Async A) (f : A -> Async B) : forall st,
  run handle (bind m f) st =
    match run handle m st with
    | inl e => inl e
    | inr (a, st') => run handle (f a) st'
    end.
Proof.
  induction m as [a|e|eff k IH]; intros st; simpl; try reflexivity.
  destruct (handle eff st) as [e|[r st']]; [reflexivity|apply IH].
Qed.

(** C10. Called with no children, the reducer takes the general path:
    it serialises a parent with an empty link list and an empty
    block-size list, persists it, and returns the descriptor of that
    node, whose [size] is the length of the serialised bytes alone.  It
    raises nothing of its own: a run fails only where a serialiser or
    the store fails. *)
Theorem reducer_empty_children (file : File.t) (options : ImporterOptions.t)
        {S : Type} (handle : forall eff : Effect, S -> Error + (Answer eff * S))
        (st : S) :
  reducer file options [] =
    buildParent file options [] (parentMeta file []) [] 0
  /\ UnixFS.blockSizes (parentMeta file []) = []
  /\ run handle (reducer file options []) st =
       match marshal (parentMeta file []) with
       | inl e => inl e
       | inr data =>
           match encode_prepare {| Data := Some data; Links := Some [] |} with
           | inl e => inl e
           | inr buffer =>
               match handle (Persist buffer (PersistOptions.of_importer options)) st with
               | inl e => inl e
               | inr (cid, st') =>
                   inr ({| returned := Entry.mk cid (File.path file)
                                         (Some (parentMeta file []))
                                         (byteLength buffer) false;
                           leaves_after := [] |}, st')
               end
           end
       end.
Proof.
  split; [reflexivity|]. split; [reflexivity|].
  unfold reducer, parentMeta, UnixFS.new. simpl.
  destruct (marshal _) as [e|data]; [reflexivity|]. simpl.
  destruct (encode_prepare _) as [e|buffer]; [reflexivity|]. simpl.
  destruct (handle _ st) as [e|[cid st']]; [reflexivity|].
  unfold sumTsize. simpl. now rewrite Z.add_0_r.
Qed.

(** ** The reducer: single-leaf path *)

(** C2. A sole child marked single, with the optimisation enabled, is
    returned as it is under the file's path when the file declares
    neither a modification time nor a mode, or when the leaf is not a
    bare one: address, metadata and size are the leaf's own, and the
    reducer issues no store operation at all. *)
Theorem reducer_single_leaf_promotion (file : File.t)
        (options : ImporterOptions.t) (leaf : Entry.t) :
  Entry.single leaf = true ->
  ImporterOptions.reduceSingleLeafToSelf options = true ->
  (File.mtime file = None /\ File.mode file = None) \/ isBare leaf = false ->
  reducer file options [leaf] =
    Resolve {| returned := Entry.mk (Entry.cid leaf) (File.path file)
                             (Entry.unixfs leaf) (Entry.size leaf) false;
               leaves_after := [leaf] |}
  /\ (forall eff, ~ Issues (reducer file options [leaf]) eff).
Proof.
  intros Hsingle Hopt Hplain.
  assert (Hret : reducer file options [leaf] =
    Resolve {| returned := Entry.mk (Entry.cid leaf) (File.path file)
                             (Entry.unixfs leaf) (Entry.size leaf) false;
               leaves_after := [leaf] |}).
  { unfold reducer, singleLeaf. rewrite Hsingle, Hopt. simpl.
    destruct Hplain as [[-> ->]|Hframed].
    - simpl. now rewrite andb_false_r.
    - unfold isBare in Hframed. now rewrite Hframed. }
  split; [exact Hret|].
  intros eff. rewrite Hret. simpl. tauto.
Qed.

(** C3. A sole bare leaf marked single, with the optimisation enabled
    and a file that declares a modification time or a mode, is
    upgraded: its bytes are fetched from the store, wrapped in fresh
    metadata of type file carrying the file's mtime and mode,
    serialised, and persisted under the dag-pb codec; the returned
    descriptor carries the address answered by that persist and the
    length of the framed bytes, and the leaf itself is updated in
    place, so that its former address is gone. *)
Theorem reducer_single_leaf_upgrade (file : File.t)
        (options : ImporterOptions.t) (leaf : Entry.t) :
  Entry.single leaf = true ->
  ImporterOptions.reduceSingleLeafToSelf options = true ->
  isBare leaf = true ->
  File.mtime file <> None \/ File.mode file <> None ->
  reducer file options [leaf] =
    Await (BlockGet (Entry.cid leaf) options) (fun fetched =>
      let framed := UnixFS.mk "file" (Some fetched)
                      (File.mtime file) (File.mode file) [] in
      data <- trySync (marshal framed) ;;
      buffer <- trySync (encode_prepare {| Data := Some data; Links := None |}) ;;
      Await (Persist buffer
               (PersistOptions.mk (Some mc.DAG_PB)
                  (ImporterOptions.cidVersion options)
                  (ImporterOptions.hasher options)
                  (ImporterOptions.onlyHash options)))
            (fun cid =>
               Resolve {| returned := Entry.mk cid (File.path file) (Some framed)
                                        (byteLength buffer) false;
                          leaves_after := [Entry.mk cid (Entry.path leaf)
                                             (Some framed) (byteLength buffer)
                                             (Entry.single leaf)] |})).
Proof.
  intros Hsingle Hopt Hbare Hmeta.
  unfold reducer, singleLeaf. rewrite Hsingle, Hopt. simpl.
  unfold isBare in Hbare. rewrite Hbare. simpl.
  assert (Hdef : defined (File.mtime file) || defined (File.mode file) = true).
  { destruct (File.mtime file), (File.mode file); simpl; try reflexivity.
    destruct Hmeta; congruence. }
  rewrite Hdef. simpl. now rewrite Hsingle.
Qed.

(** ** The reducer: failures *)

Ltac collaborator_step handle :=
  match goal with
  | |- context [trySync (?f ?x)] =>
      let e := fresh "e" in
      let Hcall := fresh "Hcall" in
      destruct (f x) as [e|?] eqn:Hcall; simpl;
      [right; exists e; split;
       [reflexivity|unfold collaboratorFailure; eauto]|]
  | |- context [handle ?eff ?st] =>
      let e := fresh "e" in
      let Hcall := fresh "Hcall" in
      destruct (handle eff st) as [e|[? ?]] eqn:Hcall; simpl;
      [right; exists e; split;
       [reflexivity|unfold collaboratorFailure; eauto]|]
  end.

(** C9 (as the code has it). The reducer checks nothing about its
    children and raises no error of its own: every run either returns a
    descriptor or fails with the very error of a store operation or of
    a serialiser.  In particular a failure of Persist, on the general
    path and on the upgrade of a single bare leaf, is the failure of
    the reduction, unchanged. *)
Theorem reducer_failures_are_propagated (file : File.t)
        (options : ImporterOptions.t) (leaves : list Entry.t)
        {S : Type} (handle : forall eff : Effect, S -> Error + (Answer eff * S))
        (st : S) :
  ((exists r st', run handle (reducer file options leaves) st = inr (r, st'))
   \/ (exists e, run handle (reducer file options leaves) st = inl e
                 /\ collaboratorFailure handle e))
  /\ (generalPath options leaves ->
      forall data buffer e,
        marshal (parentMeta file (map logicalContribution (retained leaves)))
          = inr data ->
        encode_prepare {| Data := Some data;
                          Links := Some (map linkOf (retained leaves)) |}
          = inr buffer ->
        handle (Persist buffer (PersistOptions.of_importer options)) st = inl e ->
        run handle (reducer file options leaves) st = inl e)
  /\ (forall leaf (fetched : bytes) st1 data buffer e,
        leaves = [leaf] ->
        Entry.single leaf = true ->
        ImporterOptions.reduceSingleLeafToSelf options = true ->
        isBare leaf = true ->
        File.mtime file <> None \/ File.mode file <> None ->
        handle (BlockGet (Entry.cid leaf) options) st = inr (fetched, st1) ->
        marshal (UnixFS.mk "file" (Some fetched)
                   (File.mtime file) (File.mode file) []) = inr data ->
        encode_prepare {| Data := Some data; Links := None |} = inr buffer ->
        handle (Persist buffer
                  (PersistOptions.mk (Some mc.DAG_PB)
                     (ImporterOptions.cidVersion options)
                     (ImporterOptions.hasher options)
                     (ImporterOptions.onlyHash options))) st1 = inl e ->
        run handle (reducer file options leaves) st = inl e).
Proof.
  split; [|split].
  - destruct (singleLeaf options leaves) as [leaf|] eqn:Hpath.
    + unfold reducer. rewrite Hpath.
      destruct ((CID.code (Entry.cid leaf) =? rawCodec.code)
                && (defined (File.mtime file) || defined (File.mode file)));
        simpl; [|left; eauto].
      collaborator_step handle.
      collaborator_step handle.
      collaborator_step handle.
      collaborator_step handle.
      left; eauto.
    + rewrite reducer_general by assumption. unfold buildParent.
      collaborator_step handle.
      collaborator_step handle.
      collaborator_step handle.
      left; eauto.
  - intros Hgeneral data buffer e Hdata Hbuffer Hpersist.
    apply generalPath_singleLeaf in Hgeneral.
    rewrite reducer_general by assumption. unfold buildParent.
    rewrite Hdata. simpl. rewrite Hbuffer. simpl. now rewrite Hpersist.
  - intros leaf fetched st1 data buffer e -> Hsingle Hopt Hbare Hmeta
           Hget Hdata Hbuffer Hpersist.
    assert (Hdef : defined (File.mtime file) || defined (File.mode file) = true).
    { destruct (File.mtime file), (File.mode file); simpl; try reflexivity.
      destruct Hmeta; congruence. }
    unfold isBare in Hbare.
    unfold reducer, singleLeaf. rewrite Hsingle, Hopt. simpl.
    rewrite Hbare, Hdef. simpl. rewrite Hget. unfold UnixFS.new.
    rewrite Hdata. simpl. rewrite Hbuffer. simpl.
    now rewrite Hpersist.
Qed.

(** ** The leaf builder *)

Lemma leafTask_raw (file : File.t) (options : ImporterOptions.t) (chunk : bytes) :
  ImporterOptions.rawLeaves options = true ->
  leafTask file options chunk =
    Await (Progress (byteLength chunk) (File.path file)) (fun _ =>
      Await (Persist chunk
               (PersistOptions.mk (Some mc.RAW) 1
                  (ImporterOptions.hasher options)
                  (ImporterOptions.onlyHash options)))
            (fun cid => Resolve (Entry.mk cid None None (byteLength chunk) false))).
Proof.
  intros Hraw. unfold leafTask, leafOpts. now rewrite Hraw.
Qed.

Lemma leafTask_framed (file : File.t) (options : ImporterOptions.t) (chunk : bytes) :
  ImporterOptions.rawLeaves options = false ->
  leafTask file options chunk =
    Await (Progress (byteLength chunk) (File.path file)) (fun _ =>
      data <- trySync (marshal (UnixFS.mk (ImporterOptions.leafType options)
                                  (Some chunk) (File.mtime file)
                                  (File.mode file) [])) ;;
      buffer <- trySync (encode_prepare {| Data := Some data; Links := None |}) ;;
      Await (Persist buffer
               (PersistOptions.mk (Some mc.DAG_PB)
                  (ImporterOptions.cidVersion options)
                  (ImporterOptions.hasher options)
                  (ImporterOptions.onlyHash options)))
            (fun cid =>
               Resolve (Entry.mk cid None
                          (Some (UnixFS.mk (ImporterOptions.leafType options)
                                   (Some chunk) (File.mtime file)
                                   (File.mode file) []))
                          (byteLength buffer) false))).
Proof.
  intros Hframed. unfold leafTask, leafOpts. now rewrite Hframed.
Qed.

(** C7. With raw leaves enabled a task persists the chunk itself, under
    the raw codec and with address version 1 whatever version the
    caller configured; with raw leaves disabled whatever the task
    persists goes under the dag-pb codec with the caller's configured
    address version. *)
Theorem leaf_persist_address_version (file : File.t)
        (options : ImporterOptions.t) (chunk : bytes) :
  (ImporterOptions.rawLeaves options = true ->
     Issues (leafTask file options chunk)
       (Persist chunk (PersistOptions.mk (Some mc.RAW) 1
                         (ImporterOptions.hasher options)
                         (ImporterOptions.onlyHash options)))
     /\ forall buffer opts,
          Issues (leafTask file options chunk) (Persist buffer opts) ->
          buffer = chunk
          /\ PersistOptions.codec opts = Some mc.RAW
          /\ PersistOptions.cidVersion opts = 1)
  /\ (ImporterOptions.rawLeaves options = false ->
      (forall data buffer,
          marshal (UnixFS.mk (ImporterOptions.leafType options) (Some chunk)
                     (File.mtime file) (File.mode file) []) = inr data ->
          encode_prepare {| Data := Some data; Links := None |} = inr buffer ->
          Issues (leafTask file options chunk)
            (Persist buffer (PersistOptions.mk (Some mc.DAG_PB)
                               (ImporterOptions.cidVersion options)
                               (ImporterOptions.hasher options)
                               (ImporterOptions.onlyHash options))))
      /\ forall buffer opts,
           Issues (leafTask file options chunk) (Persist buffer opts) ->
           PersistOptions.codec opts = Some mc.DAG_PB
           /\ PersistOptions.cidVersion opts = ImporterOptions.cidVersion options).
Proof.
  split.
  - intros Hraw. rewrite leafTask_raw by assumption. simpl. split.
    + right. exists tt. now left.
    + intros buffer opts [Habs|[_ [Heq|[_ []]]]]; [discriminate|].
      injection Heq as <- <-. now repeat split.
  - intros Hframed. rewrite leafTask_framed by assumption. simpl. split.
    + intros data buffer -> . simpl. intros ->. simpl.
      right. exists tt. now left.
    + intros buffer opts [Habs|[_ Hlater]]; [discriminate|].
      destruct (marshal _) as [e|data]; simpl in Hlater; [contradiction|].
      destruct (encode_prepare _) as [e|framed]; simpl in Hlater; [contradiction|].
      destruct Hlater as [Heq|[_ []]].
      injection Heq as <- <-. now split.
Qed.

(** C8 (as the code has it). With raw leaves disabled the metadata
    built for a chunk has the declared type given by
    [options.leafType], holds the chunk as its data and the file's
    mtime and mode; the task persists the serialised metadata and
    resolves to a descriptor that carries the metadata and whose [size]
    is the length of the persisted bytes.  With raw leaves enabled the
    persisted bytes are the chunk, [size] is its length, and the
    descriptor carries no metadata. *)
Theorem leaf_descriptor (file : File.t) (options : ImporterOptions.t)
        (chunk : bytes) :
  (ImporterOptions.rawLeaves options = false ->
   exists meta,
     UnixFS.type meta = ImporterOptions.leafType options
     /\ UnixFS.data meta = Some chunk
     /\ UnixFS.mtime meta = File.mtime file
     /\ UnixFS.mode meta = File.mode file
     /\ UnixFS.blockSizes meta = []
     /\ leafTask file options chunk =
          Await (Progress (byteLength chunk) (File.path file)) (fun _ =>
            data <- trySync (marshal meta) ;;
            buffer <- trySync (encode_prepare {| Data := Some data; Links := None |}) ;;
            Await (Persist buffer (leafOpts options))
                  (fun cid =>
                     Resolve (Entry.mk cid None (Some meta)
                                (byteLength buffer) false))))
  /\ (ImporterOptions.rawLeaves options = true ->
      leafTask file options chunk =
        Await (Progress (byteLength chunk) (File.path file)) (fun _ =>
          Await (Persist chunk (leafOpts options))
                (fun cid =>
                   Resolve (Entry.mk cid None None (byteLength chunk) false)))).
Proof.
  split.
  - intros Hframed.
    exists (UnixFS.mk (ImporterOptions.leafType options) (Some chunk)
              (File.mtime file) (File.mode file) []).
    repeat (split; [reflexivity|]).
    rewrite leafTask_framed by assumption.
    unfold leafOpts. now rewrite Hframed.
  - intros Hraw. rewrite leafTask_raw by assumption.
    unfold leafOpts. now rewrite Hraw.
Qed.

(** A descriptor from the built-in leaf builder never carries the
    single flag. *)
Lemma leafTask_not_single (file : File.t) (options : ImporterOptions.t)
      (chunk : bytes) {S : Type}
      (handle : forall eff : Effect, S -> Error + (Answer eff * S))
      (st st' : S) (entry : Entry.t) :
  run handle (leafTask file options chunk) st = inr (entry, st') ->
  Entry.single entry = false.
Proof.
  destruct (ImporterOptions.rawLeaves options) eqn:Hraw.
  - rewrite leafTask_raw by assumption. simpl.
    destruct (handle _ st) as [e|[[] st1]]; [discriminate|].
    destruct (handle _ st1) as [e|[cid st2]]; [discriminate|].
    now intros [= <- _].
  - rewrite leafTask_framed by assumption. simpl.
    destruct (handle _ st) as [e|[[] st1]]; [discriminate|].
    destruct (marshal _) as [e|data]; [discriminate|]. simpl.
    destruct (encode_prepare _) as [e|buffer]; [discriminate|]. simpl.
    destruct (handle _ st1) as [e|[cid st2]]; [discriminate|].
    now intros [= <- _].
Qed.

(** ** The batcher *)

Lemma batchLoop_steady (entries : list Entry.t) : forall st,
  1 <= count st -> previous st = None ->
  batchLoop st entries =
    ({| count := count st + Z.of_nat (List.length entries); previous := None |},
     entries).
Proof.
  induction entries as [|entry rest IH]; intros st Hcount Hprev.
  - simpl. destruct st as [c p]. simpl in *. subst p. f_equal. f_equal. lia.
  - cbn [batchLoop]. unfold batchStep. rewrite Hprev.
    destruct (Z.eqb_spec (count st + 1) 0) as [Hz|_]; [lia|].
    destruct (Z.eqb_spec (count st + 1) 1) as [Hz|_]; [lia|].
    rewrite IH by (simpl; try lia; reflexivity).
    simpl. f_equal. f_equal. lia.
Qed.

Lemma batchLoop_two (first second : Entry.t) (rest : list Entry.t) :
  batchLoop batchInit (first :: second :: rest) =
    ({| count := 1 + Z.of_nat (List.length rest); previous := None |},
     first :: second :: rest).
Proof.
  cbn [batchLoop]. unfold batchStep, batchInit. simpl.
  now rewrite batchLoop_steady by (simpl; try lia; reflexivity).
Qed.

Lemma batchYields_cases (entries : list Entry.t) :
  batchYields entries =
    match entries with
    | [only] => [Entry.set_single only true]
    | _ => entries
    end.
Proof.
  destruct entries as [|first [|second rest]]; try reflexivity.
  unfold batchYields. rewrite batchLoop_two.
  unfold batchFinish. simpl. now rewrite app_nil_r.
Qed.

(** The results that [parallelBatch] delivers are those of the tasks,
    one per task and in task order. *)
Lemma parallelBatch_in_order {S A : Type}
      (handle : forall eff : Effect, S -> Error + (Answer eff * S))
      (tasks : list (Async A)) (size : Z) : forall st delivered st',
  run handle (parallelBatch tasks size) st = inr (delivered, st') ->
  Forall2 (fun task result => exists s s', run handle task s = inr (result, s'))
          tasks delivered.
Proof.
  induction tasks as [|task rest IH]; intros st delivered st'; simpl.
  - intros [= <- _]. constructor.
  - rewrite run_bind.
    destruct (run handle task st) as [e|[r s1]] eqn:Htask; [discriminate|].
    rewrite run_bind.
    destruct (run handle (parallelBatch rest size) s1) as [e|[rs s2]] eqn:Hrest;
      [discriminate|].
    simpl. intros [= <- _]. constructor; eauto.
Qed.

Lemma batchYields_length (entries : list Entry.t) :
  List.length (batchYields entries) = List.length entries.
Proof.
  rewrite batchYields_cases.
  now destruct entries as [|first [|second rest]].
Qed.

Lemma batchYields_single (entries : list Entry.t) :
  Forall (fun entry => Entry.single entry = false) entries ->
  forall yielded, In yielded (batchYields entries) ->
    (Entry.single yielded = true <-> List.length entries = 1%nat).
Proof.
  intros Hunset yielded. rewrite batchYields_cases.
  destruct entries as [|first [|second rest]].
  - intros [].
  - intros [<-|[]]. simpl. tauto.
  - intros Hin. rewrite Forall_forall in Hunset.
    rewrite (Hunset _ Hin). simpl. split; [discriminate|lia].
Qed.

(** What the built-in leaf builder's tasks deliver: one descriptor per
    chunk, none of them flagged. *)
Lemma bufferImporter_delivers {S : Type}
      (handle : forall eff : Effect, S -> Error + (Answer eff * S))
      (file : File.t) (options : ImporterOptions.t)
      (delivered : list Entry.t) :
  Forall2 (fun task result => exists s s', run handle task s = inr (result, s'))
          (bufferImporter file options) delivered ->
  List.length delivered = List.length (File.content file)
  /\ Forall (fun entry => Entry.single entry = false) delivered.
Proof.
  unfold bufferImporter. revert delivered.
  induction (File.content file) as [|chunk chunks IH]; intros delivered Hall;
    inversion Hall as [|task result tasks results (s & s' & Hrun) Hrest]; subst.
  - split; [reflexivity|constructor].
  - destruct (IH _ Hrest) as [Hlen Hunset]. split.
    + simpl. now rewrite Hlen.
    + constructor; [|exact Hunset].
      eapply leafTask_not_single, Hrun.
Qed.

(** C6 (as the code has it). The batcher yields the delivered results
    in their order of delivery, which is the order of the tasks.  Nothing is yielded while only the
    first result has arrived; once the second arrives the first and the
    second are yielded, and every later result as it arrives; a
    sequence that ends after one result yields that result with
    [single] set.  With two or more results the descriptors are yielded
    as they came, so for results that arrive without the flag a yielded
    descriptor has [single] set exactly when the sequence had one
    result; so it is for the built-in leaf builder, where a yielded
    descriptor has [single] set exactly when the file has one chunk. *)
Theorem batch_order_and_single (entries : list Entry.t) :
  batchYields entries =
    match entries with
    | [only] => [Entry.set_single only true]
    | _ => entries
    end
  /\ batchYieldedSoFar [] = []
  /\ (forall first, batchYieldedSoFar [first] = [])
  /\ (forall first second rest,
        batchYieldedSoFar (first :: second :: rest) = first :: second :: rest)
  /\ (Forall (fun entry => Entry.single entry = false) entries ->
      forall yielded, In yielded (batchYields entries) ->
        (Entry.single yielded = true <-> List.length entries = 1%nat))
  /\ (forall (hook : option BufferImporter) file options (S : Type)
             (handle : forall eff : Effect, S -> Error + (Answer eff * S))
             (st : S),
        let tasks := match hook with
                     | Some custom => custom file options
                     | None => bufferImporter file options
                     end in
        run handle (buildFileBatch hook file options) st =
          match run handle
                  (parallelBatch tasks
                     (ImporterOptions.blockWriteConcurrency options)) st with
          | inl e => inl e
          | inr (delivered, st') => inr (batchYields delivered, st')
          end
        /\ forall delivered st',
             run handle
               (parallelBatch tasks
                  (ImporterOptions.blockWriteConcurrency options)) st
             = inr (delivered, st') ->
             Forall2 (fun task result =>
                        exists s s', run handle task s = inr (result, s'))
                     tasks delivered)
  /\ (forall file options (S : Type)
             (handle : forall eff : Effect, S -> Error + (Answer eff * S))
             (st st' : S) (yields : list Entry.t),
        run handle (buildFileBatch None file options) st = inr (yields, st') ->
        List.length yields = List.length (File.content file)
        /\ forall yielded, In yielded yields ->
             (Entry.single yielded = true <->
              List.length (File.content file) = 1%nat)).
Proof.
  split; [apply batchYields_cases|].
  split; [reflexivity|].
  split; [reflexivity|].
  split.
  { intros first second rest. unfold batchYieldedSoFar.
    now rewrite batchLoop_two. }
  split; [apply batchYields_single|].
  split.
  { intros hook file options S handle st tasks. split.
    - unfold buildFileBatch. rewrite run_bind. subst tasks.
      destruct hook; reflexivity.
    - intros delivered st'. apply parallelBatch_in_order. }
  intros file options S handle st st' yields.
  unfold buildFileBatch. rewrite run_bind.
  destruct (run handle (parallelBatch _ _) st) as [e|[delivered st1]] eqn:Hbatch;
    [discriminate|].
  simpl. intros [= <- _].
  apply parallelBatch_in_order, bufferImporter_delivers in Hbatch.
  destruct Hbatch as [Hlen Hunset].
  rewrite batchYields_length, <- Hlen.
  split; [reflexivity|]. now apply batchYields_single.
Qed.

(** ** Logs of runs *)

Lemma runLog_outcome {S A : Type}
      (handle : forall eff : Effect, S -> Error + (Answer eff * S))
      (m : Async A) : forall st,
  snd (runLog handle m st) = run handle m st.
Proof.
  induction m as [a|e|eff k IH]; intros st; simpl; try reflexivity.
  destruct (handle eff st) as [e|[r st']]; [reflexivity|].
  rewrite <- IH. now destruct (runLog handle (k r) st').
Qed.

Lemma runLog_bind {S A B : Type}
      (handle : forall eff : Effect, S -> Error + (Answer eff * S))
      (m : Async A) (f : A -> Async B) : forall st,
  runLog handle (bind m f) st =
    match runLog handle m st with
    | (log, inl e) => (log, inl e)
    | (log, inr (a, st')) =>
        let '(rest, outcome) := runLog handle (f a) st' in
        (log ++ rest, outcome)
    end.
Proof.
  induction m as [a|e|eff k IH]; intros st; simpl.
  - now destruct (runLog handle (f a) st).
  - reflexivity.
  - destruct (handle eff st) as [e|[r st']]; [reflexivity|].
    rewrite IH.
    destruct (runLog handle (k r) st') as [log [e|[a st'']]]; [reflexivity|].
    now destruct (runLog handle (f a) st'').
Qed.

Lemma reportsOf_app (log rest : list Effect) :
  reportsOf (log ++ rest) = reportsOf log ++ reportsOf rest.
Proof. unfold reportsOf. apply flat_map_app. Qed.

Lemma persistsOf_app (log rest : list Effect) :
  persistsOf (log ++ rest) = persistsOf log ++ persistsOf rest.
Proof. unfold persistsOf. apply flat_map_app. Qed.

(** The log of a reduction on the general path: nothing, or the one
    call of persist. *)
Lemma reducer_general_log {S : Type}
      (handle : forall eff : Effect, S -> Error + (Answer eff * S))
      (file : File.t) (options : ImporterOptions.t) (leaves : list Entry.t)
      (st : S) :
  singleLeaf options leaves = None ->
  fst (runLog handle (reducer file options leaves) st) = []
  \/ exists buffer,
       fst (runLog handle (reducer file options leaves) st)
       = [Persist buffer (PersistOptions.of_importer options)].
Proof.
  intros Hgeneral. rewrite reducer_general by assumption. unfold buildParent.
  destruct (marshal _) as [e|data]; simpl; [now left|].
  destruct (encode_prepare _) as [e|buffer]; simpl; [now left|].
  right. exists buffer.
  now destruct (handle _ st) as [e|[cid st']].
Qed.

(** The log of a reduction on the single-leaf path: nothing, the read
    of the leaf, or the read followed by the one call of persist. *)
Lemma reducer_single_log {S : Type}
      (handle : forall eff : Effect, S -> Error + (Answer eff * S))
      (file : File.t) (options : ImporterOptions.t) (leaves : list Entry.t)
      (leaf : Entry.t) (st : S) :
  singleLeaf options leaves = Some leaf ->
  fst (runLog handle (reducer file options leaves) st) = []
  \/ (isBare leaf = true
      /\ (fst (runLog handle (reducer file options leaves) st)
          = [BlockGet (Entry.cid leaf) options]
          \/ exists buffer,
               fst (runLog handle (reducer file options leaves) st)
               = [BlockGet (Entry.cid leaf) options;
                  Persist buffer
                    (PersistOptions.mk (Some mc.DAG_PB)
                       (ImporterOptions.cidVersion options)
                       (ImporterOptions.hasher options)
                       (ImporterOptions.onlyHash options))])).
Proof.
  intros Hsingle. unfold reducer. rewrite Hsingle. unfold isBare.
  destruct (CID.code (Entry.cid leaf) =? rawCodec.code); simpl; [|now left].
  destruct (defined (File.mtime file) || defined (File.mode file)); simpl;
    [|now left].
  right. split; [reflexivity|].
  destruct (handle _ st) as [e|[fetched st1]]; [now left|].
  destruct (marshal _) as [e|data]; simpl; [now left|].
  destruct (encode_prepare _) as [e|buffer]; simpl; [now left|].
  right. exists buffer.
  now destruct (handle _ st1) as [e|[cid st2]].
Qed.

Lemma singleLeaf_sole (options : ImporterOptions.t) (leaves : list Entry.t)
      (leaf : Entry.t) :
  singleLeaf options leaves = Some leaf ->
  leaves = [leaf] /\ Entry.single leaf = true
  /\ ImporterOptions.reduceSingleLeafToSelf options = true.
Proof.
  unfold singleLeaf. destruct leaves as [|first [|second rest]]; try discriminate.
  destruct (Entry.single first) eqn:Hflag,
           (ImporterOptions.reduceSingleLeafToSelf options) eqn:Hopt;
    simpl; try discriminate.
  now intros [= <-].
Qed.

(** ** What else the reducer does and never does *)

(** X1. A reduction reports no progress, calls persist at most once and
    hands it the caller's hasher, address version and hash-only flag.
    On the general path it never reads the store and its one persist
    runs under [options.codec] as configured; the store is read only to
    upgrade a sole bare leaf marked single, and for that leaf's own
    address. *)
Theorem reducer_operations (file : File.t) (options : ImporterOptions.t)
        (leaves : list Entry.t) {S : Type}
        (handle : forall eff : Effect, S -> Error + (Answer eff * S))
        (st : S) :
  let log := fst (runLog handle (reducer file options leaves) st) in
  reportsOf log = []
  /\ (List.length (persistsOf log) <= 1)%nat
  /\ Forall (fun call =>
               PersistOptions.hasher (snd call) = ImporterOptions.hasher options
               /\ PersistOptions.cidVersion (snd call)
                  = ImporterOptions.cidVersion options
               /\ PersistOptions.onlyHash (snd call)
                  = ImporterOptions.onlyHash options)
            (persistsOf log)
  /\ (generalPath options leaves ->
      getsOf log = []
      /\ Forall (fun call => PersistOptions.codec (snd call)
                             = ImporterOptions.codec options)
                (persistsOf log))
  /\ (getsOf log <> [] ->
      exists leaf, leaves = [leaf] /\ getsOf log = [Entry.cid leaf]
                   /\ isBare leaf = true /\ Entry.single leaf = true).
Proof.
  intros log. subst log.
  destruct (singleLeaf options leaves) as [leaf|] eqn:Hpath.
  - destruct (singleLeaf_sole _ _ _ Hpath) as (Hsole & Hflag & Hopt).
    assert (Hnot : ~ generalPath options leaves)
      by (rewrite generalPath_singleLeaf; congruence).
    destruct (reducer_single_log handle file options leaves leaf st Hpath)
      as [->|[Hbare [->|[buffer ->]]]]; simpl.
    + split; [reflexivity|]. split; [lia|]. split; [constructor|].
      split; [tauto|]. intros Hgets. now elim Hgets.
    + split; [reflexivity|]. split; [lia|]. split; [constructor|].
      split; [tauto|]. intros _. now exists leaf.
    + split; [reflexivity|]. split; [lia|].
      split; [now repeat constructor|].
      split; [tauto|]. intros _. now exists leaf.
  - assert (Hgeneral : generalPath options leaves)
      by now apply generalPath_singleLeaf.
    destruct (reducer_general_log handle file options leaves st Hpath)
      as [->|[buffer ->]]; simpl.
    + split; [reflexivity|]. split; [lia|]. split; [constructor|].
      split; [now split; [|constructor]|]. intros Hgets. now elim Hgets.
    + split; [reflexivity|]. split; [lia|].
      split; [now repeat constructor|].
      split; [now split; [|repeat constructor]|].
      intros Hgets. now elim Hgets.
Qed.

Lemma dropped_contribution (child : Entry.t) :
  linkFilter child = false -> logicalContribution child = 0.
Proof.
  unfold linkFilter, logicalContribution, isBare, truthy, byteLength.
  destruct (CID.code (Entry.cid child) =? rawCodec.code); simpl.
  - destruct (Z.eqb_spec (Entry.size child) 0) as [->|_]; simpl;
      [reflexivity|discriminate].
  - destruct (Entry.unixfs child) as [meta|]; [|reflexivity].
    destruct (UnixFS.data meta) as [inline|]; simpl.
    + destruct (Z.eqb_spec (Z.of_nat (List.length inline)) 0) as [->|_];
        simpl; [reflexivity|discriminate].
    + destruct (Z.eqb_spec (fileSize meta) 0) as [->|_]; simpl;
        [reflexivity|discriminate].
Qed.

Lemma retained_total (children : list Entry.t) :
  total (map logicalContribution (retained children))
  = total (map logicalContribution children).
Proof.
  unfold retained.
  induction children as [|child rest IH]; [reflexivity|]. simpl.
  destruct (linkFilter child) eqn:Hkeep; simpl.
  - now rewrite IH.
  - rewrite IH. now rewrite (dropped_contribution child Hkeep).
Qed.

(** X2. Filtering loses no logical bytes: a child that the reducer
    drops has a logical contribution of zero, so the block sizes
    recorded in the new parent add up to the logical contributions of
    all the children given, dropped ones included.  For a child whose
    address and metadata agree (raw codec exactly when it carries no
    metadata) being dropped and contributing zero are the same. *)
Theorem reducer_block_sizes_total (file : File.t) (options : ImporterOptions.t)
        (leaves : list Entry.t) :
  generalPath options leaves ->
  (exists meta links,
      reducer file options leaves =
        buildParent file options leaves meta links (sumSizes (retained leaves))
      /\ total (UnixFS.blockSizes meta)
         = total (map logicalContribution leaves))
  /\ (forall child, linkFilter child = false -> logicalContribution child = 0)
  /\ (forall child,
        (isBare child = true <-> Entry.unixfs child = None) ->
        (linkFilter child = true <-> logicalContribution child <> 0)).
Proof.
  intros Hgeneral. apply generalPath_singleLeaf in Hgeneral.
  split.
  { eexists _, _. split; [now apply reducer_general|].
    simpl. apply retained_total. }
  split; [apply dropped_contribution|].
  intros child Hagree. split.
  - rewrite linkFilter_contributes. unfold logicalContribution.
    intros [[Hbare Hsize]|[(meta & Hmeta & Hdata & Hlen)
                          |(meta & inline & Hmeta & Hdata & Hne)]].
    + now rewrite Hbare.
    + destruct (isBare child) eqn:Hbare.
      * apply proj1 in Hagree. rewrite Hagree in Hmeta by reflexivity.
        discriminate.
      * now rewrite Hmeta, Hdata.
    + destruct (isBare child) eqn:Hbare.
      * apply proj1 in Hagree. rewrite Hagree in Hmeta by reflexivity.
        discriminate.
      * rewrite Hmeta, Hdata. now apply byteLength_truthy, truthy_true in Hne.
  - intros Hcontrib. destruct (linkFilter child) eqn:Hkeep; [reflexivity|].
    now apply dropped_contribution in Hkeep.
Qed.

Lemma sumSizes_bounds (children : list Entry.t) :
  Forall (fun child => 0 <= Entry.size child) children ->
  0 <= sumSizes children
  /\ Forall (fun child => Entry.size child <= sumSizes children) children.
Proof.
  induction 1 as [|child rest Hchild _ [IHsum IHall]]; simpl.
  - split; [lia|constructor].
  - split; [lia|]. constructor; [lia|].
    eapply Forall_impl; [|exact IHall]. simpl. intros other Hother. lia.
Qed.

Lemma retained_Forall (P : Entry.t -> Prop) (children : list Entry.t) :
  Forall P children -> Forall P (retained children).
Proof.
  unfold retained. rewrite !Forall_forall. intros Hall child Hin.
  apply filter_In in Hin. now apply Hall.
Qed.

(** X3. What a reduction returns.  The descriptor always carries the
    file's path and never the single flag, so reducing it alone later
    builds a parent around it.  On the general path the children are
    left as they were and the new metadata is of type file, without
    inline data, with the file's mtime and mode.  When no child has a
    negative size the returned size is not negative either, and on the
    general path it is at least the size of every linked child and at
    least their sum. *)
Theorem reducer_result (file : File.t) (options : ImporterOptions.t)
        (leaves : list Entry.t) {S : Type}
        (handle : forall eff : Effect, S -> Error + (Answer eff * S))
        (st st' : S) (r : Reduced) :
  run handle (reducer file options leaves) st = inr (r, st') ->
  Entry.path (returned r) = File.path file
  /\ Entry.single (returned r) = false
  /\ (forall later, singleLeaf later [returned r] = None)
  /\ (generalPath options leaves ->
      leaves_after r = leaves
      /\ exists sizes,
           Entry.unixfs (returned r)
           = Some (UnixFS.mk "file" None (File.mtime file) (File.mode file) sizes))
  /\ (Forall (fun child => 0 <= Entry.size child) leaves ->
      0 <= Entry.size (returned r)
      /\ (generalPath options leaves ->
          sumSizes (retained leaves) <= Entry.size (returned r)
          /\ Forall (fun child => Entry.size child <= Entry.size (returned r))
                    (retained leaves))).
Proof.
  intros Hrun.
  destruct (singleLeaf options leaves) as [leaf|] eqn:Hpath.
  - destruct (singleLeaf_sole _ _ _ Hpath) as (-> & Hflag & Hopt).
    assert (Hnot : ~ generalPath options [leaf])
      by (rewrite generalPath_singleLeaf; congruence).
    unfold reducer in Hrun. rewrite Hpath in Hrun.
    destruct ((CID.code (Entry.cid leaf) =? rawCodec.code)
              && (defined (File.mtime file) || defined (File.mode file))).
    + simpl in Hrun.
      destruct (handle _ st) as [e|[fetched st1]]; [discriminate|].
      destruct (marshal _) as [e|data]; [discriminate|]. simpl in Hrun.
      destruct (encode_prepare _) as [e|buffer]; [discriminate|]. simpl in Hrun.
      destruct (handle _ st1) as [e|[cid st2]]; [discriminate|].
      injection Hrun as <- _. simpl.
      repeat (split; [reflexivity|]). split; [tauto|].
      intros _. split; [unfold byteLength; lia|tauto].
    + simpl in Hrun. injection Hrun as <- _. simpl.
      repeat (split; [reflexivity|]). split; [tauto|].
      intros Hall. split; [now inversion Hall|tauto].
  - rewrite reducer_general in Hrun by assumption. unfold buildParent in Hrun.
    destruct (marshal _) as [e|data]; [discriminate|]. simpl in Hrun.
    destruct (encode_prepare _) as [e|buffer]; [discriminate|]. simpl in Hrun.
    destruct (handle _ st) as [e|[cid st1]]; [discriminate|].
    injection Hrun as <- _. simpl.
    repeat (split; [reflexivity|]).
    split; [intros _; split; [reflexivity|now eexists]|].
    intros Hall. apply retained_Forall, sumSizes_bounds in Hall.
    destruct Hall as [Hsum Heach].
    split; [unfold byteLength; lia|]. intros _.
    split; [unfold byteLength; lia|].
    eapply Forall_impl; [|exact Heach]. simpl. intros child Hchild.
    unfold byteLength. lia.
Qed.

(** ** The leaf builder, the batcher and the reducer together *)

Lemma leafTask_leafOf {S : Type}
      (handle : forall eff : Effect, S -> Error + (Answer eff * S))
      (file : File.t) (options : ImporterOptions.t) (chunk : bytes)
      (st st' : S) (entry : Entry.t) :
  honoursCodec handle ->
  run handle (leafTask file options chunk) st = inr (entry, st') ->
  leafOf file options chunk entry.
Proof.
  intros Hcodec. unfold leafOf.
  destruct (ImporterOptions.rawLeaves options) eqn:Hraw.
  - rewrite leafTask_raw by assumption. simpl.
    destruct (handle _ st) as [e|[[] st1]]; [discriminate|].
    destruct (handle _ st1) as [e|[cid st2]] eqn:Hpersist; [discriminate|].
    intros [= <- _]. simpl.
    repeat split. exact (Hcodec _ _ _ _ _ _ Hpersist eq_refl).
  - rewrite leafTask_framed by assumption. simpl.
    destruct (handle _ st) as [e|[[] st1]]; [discriminate|].
    destruct (marshal _) as [e|data]; [discriminate|]. simpl.
    destruct (encode_prepare _) as [e|buffer]; [discriminate|]. simpl.
    destruct (handle _ st1) as [e|[cid st2]] eqn:Hpersist; [discriminate|].
    intros [= <- _]. simpl.
    split; [reflexivity|exact (Hcodec _ _ _ _ _ _ Hpersist eq_refl)].
Qed.

Lemma leafOf_contribution (file : File.t) (options : ImporterOptions.t)
      (chunk : bytes) (entry : Entry.t) :
  leafOf file options chunk entry ->
  logicalContribution entry = byteLength chunk
  /\ linkFilter entry = truthy (byteLength chunk).
Proof.
  unfold leafOf, logicalContribution, linkFilter, isBare.
  destruct (ImporterOptions.rawLeaves options).
  - intros (-> & -> & ->). simpl.
    split; [reflexivity|]. now destruct (truthy (byteLength chunk)).
  - intros (-> & ->). simpl.
    split; [reflexivity|]. now destruct (truthy (byteLength chunk)).
Qed.

Lemma leafOf_set_single (file : File.t) (options : ImporterOptions.t)
      (chunk : bytes) (entry : Entry.t) (flag : bool) :
  leafOf file options chunk entry ->
  leafOf file options chunk (Entry.set_single entry flag).
Proof. unfold leafOf. now destruct (ImporterOptions.rawLeaves options). Qed.

Lemma bufferImporter_leafOf {S : Type}
      (handle : forall eff : Effect, S -> Error + (Answer eff * S))
      (file : File.t) (options : ImporterOptions.t)
      (delivered : list Entry.t) :
  honoursCodec handle ->
  Forall2 (fun task result => exists s s', run handle task s = inr (result, s'))
          (bufferImporter file options) delivered ->
  Forall2 (leafOf file options) (File.content file) delivered.
Proof.
  intros Hcodec. unfold bufferImporter. revert delivered.
  induction (File.content file) as [|chunk chunks IH]; intros delivered Hall;
    inversion Hall as [|task result tasks results (s & s' & Hrun) Hrest]; subst.
  - constructor.
  - constructor; [|now apply IH].
    eapply leafTask_leafOf; eassumption.
Qed.

Lemma batchYields_leafOf (file : File.t) (options : ImporterOptions.t)
      (chunks : list bytes) (delivered : list Entry.t) :
  Forall2 (leafOf file options) chunks delivered ->
  Forall2 (leafOf file options) chunks (batchYields delivered).
Proof.
  intros Hall. rewrite batchYields_cases.
  destruct Hall as [|chunk first chunks rest Hfirst Hrest]; [constructor|].
  destruct Hrest; [|now repeat constructor].
  constructor; [now apply leafOf_set_single|constructor].
Qed.

(** What a successful run of the built-in batcher yields. *)
Lemma buildFileBatch_yields {S : Type}
      (handle : forall eff : Effect, S -> Error + (Answer eff * S))
      (file : File.t) (options : ImporterOptions.t)
      (st st' : S) (yields : list Entry.t) :
  run handle (buildFileBatch None file options) st = inr (yields, st') ->
  exists delivered,
    yields = batchYields delivered
    /\ List.length delivered = List.length (File.content file)
    /\ Forall (fun entry => Entry.single entry = false) delivered
    /\ (honoursCodec handle ->
        Forall2 (leafOf file options) (File.content file) yields).
Proof.
  unfold buildFileBatch. rewrite run_bind.
  destruct (run handle (parallelBatch _ _) st) as [e|[delivered st1]] eqn:Hbatch;
    [discriminate|].
  simpl. intros [= <- _]. exists delivered.
  apply parallelBatch_in_order in Hbatch.
  destruct (bufferImporter_delivers handle file options delivered Hbatch)
    as [Hlen Hunset].
  repeat (split; [assumption || reflexivity|]).
  intros Hcodec. apply batchYields_leafOf.
  now apply bufferImporter_leafOf with (handle := handle).
Qed.

Lemma leaves_block_sizes (file : File.t) (options : ImporterOptions.t)
      (chunks : list bytes) (yields : list Entry.t) :
  Forall2 (leafOf file options) chunks yields ->
  map logicalContribution yields = map byteLength chunks
  /\ map logicalContribution (retained yields)
     = filter truthy (map byteLength chunks).
Proof.
  unfold retained.
  induction 1 as [|chunk entry chunks yields Hleaf _ [IHall IHkept]];
    [now split|].
  destruct (leafOf_contribution _ _ _ _ Hleaf) as [Hsize Hkeep]. simpl.
  rewrite Hsize, IHall, Hkeep. split; [reflexivity|].
  destruct (truthy (byteLength chunk)); simpl; now rewrite ?Hsize, IHkept.
Qed.

Lemma total_byteLength (chunks : list bytes) :
  total (map byteLength chunks) = byteLength (List.concat chunks).
Proof.
  unfold byteLength.
  induction chunks as [|chunk rest IH]; [reflexivity|]. simpl.
  rewrite IH, length_app. lia.
Qed.

Lemma total_filter_truthy (sizes : list Z) :
  total (filter truthy sizes) = total sizes.
Proof.
  induction sizes as [|n rest IH]; [reflexivity|]. simpl.
  unfold truthy at 1. destruct (Z.eqb_spec n 0) as [->|_]; simpl; lia.
Qed.

(** X4. Imported through a store that honours the codec and reduced in
    one call on the general path, the leaves of a file give a parent
    whose block sizes are the lengths of the file's non-empty chunks,
    in order; they add up to the length of the file.  A leaf is linked
    exactly when its chunk is not empty. *)
Theorem import_block_sizes (file : File.t) (options : ImporterOptions.t)
        {S : Type} (handle : forall eff : Effect, S -> Error + (Answer eff * S))
        (st st' : S) (yields : list Entry.t) :
  honoursCodec handle ->
  run handle (buildFileBatch None file options) st = inr (yields, st') ->
  generalPath options yields ->
  reducer file options yields =
    buildParent file options yields
      (parentMeta file (filter truthy (map byteLength (File.content file))))
      (map linkOf (retained yields))
      (sumSizes (retained yields))
  /\ total (filter truthy (map byteLength (File.content file)))
     = byteLength (List.concat (File.content file))
  /\ Forall2 (fun chunk entry => linkFilter entry = true <-> chunk <> [])
             (File.content file) yields.
Proof.
  intros Hcodec Hrun Hgeneral.
  destruct (buildFileBatch_yields handle file options st st' yields Hrun)
    as (delivered & _ & _ & _ & Hleaves).
  specialize (Hleaves Hcodec).
  destruct (leaves_block_sizes _ _ _ _ Hleaves) as [_ Hkept].
  split.
  { apply generalPath_singleLeaf in Hgeneral.
    rewrite reducer_general by assumption. now rewrite Hkept. }
  split; [now rewrite total_filter_truthy, total_byteLength|].
  eapply Forall2_impl; [|exact Hleaves]. simpl.
  intros chunk entry Hleaf.
  destruct (leafOf_contribution _ _ _ _ Hleaf) as [_ ->].
  apply byteLength_truthy.
Qed.

(** X5. A file that declares a modification time or a mode keeps them
    at its root.  Imported with the built-in leaf builder through a
    store that honours the codec and reduced in one call, the root
    always carries metadata with the file's mtime and mode: the new
    parent's, the framed leaf's own, or that of the node built to
    upgrade a sole bare leaf. *)
Theorem root_keeps_mtime_and_mode (file : File.t) (options : ImporterOptions.t)
        {S : Type} (handle : forall eff : Effect, S -> Error + (Answer eff * S))
        (st st' : S) (r : Reduced) :
  honoursCodec handle ->
  File.mtime file <> None \/ File.mode file <> None ->
  run handle (batchThenReduce None file options) st = inr (r, st') ->
  exists meta,
    Entry.unixfs (returned r) = Some meta
    /\ UnixFS.mtime meta = File.mtime file
    /\ UnixFS.mode meta = File.mode file.
Proof.
  intros Hcodec Hdeclared. unfold batchThenReduce. rewrite run_bind.
  destruct (run handle (buildFileBatch None file options) st)
    as [e|[yields st1]] eqn:Hbatch; [discriminate|].
  destruct (buildFileBatch_yields handle file options st st1 yields Hbatch)
    as (delivered & _ & _ & _ & Hleaves).
  specialize (Hleaves Hcodec).
  destruct (singleLeaf options yields) as [leaf|] eqn:Hpath.
  - destruct (singleLeaf_sole _ _ _ Hpath) as (-> & _ & _).
    inversion Hleaves as [|chunk entry chunks rest Hleaf Hrest Hchunks]; subst.
    unfold reducer. rewrite Hpath.
    assert (Hdef : defined (File.mtime file) || defined (File.mode file) = true).
    { destruct (File.mtime file), (File.mode file); simpl; try reflexivity.
      destruct Hdeclared; congruence. }
    rewrite Hdef, andb_true_r. unfold leafOf in Hleaf.
    destruct (ImporterOptions.rawLeaves options).
    + destruct Hleaf as (_ & _ & ->). simpl.
      destruct (handle _ st1) as [e|[fetched st2]]; [discriminate|].
      destruct (marshal _) as [e|data]; [discriminate|]. simpl.
      destruct (encode_prepare _) as [e|buffer]; [discriminate|]. simpl.
      destruct (handle _ st2) as [e|[cid st3]]; [discriminate|].
      intros [= <- _]. simpl. now eexists.
    + destruct Hleaf as (Hmeta & ->). simpl.
      intros [= <- _]. simpl. rewrite Hmeta. now eexists.
  - rewrite reducer_general by assumption. unfold buildParent.
    destruct (marshal _) as [e|data]; [discriminate|]. simpl.
    destruct (encode_prepare _) as [e|buffer]; [discriminate|]. simpl.
    destruct (handle _ st1) as [e|[cid st2]]; [discriminate|].
    intros [= <- _]. simpl. now eexists.
Qed.

(** X6. Promotion is for one-chunk files only.  Over the output of the
    built-in batcher the reducer takes its single-leaf path exactly
    when the file has one chunk and the optimisation is enabled; for a
    file of any other length no group of yielded leaves, however a
    strategy cuts it, takes that path. *)
Theorem promotion_only_for_one_chunk (file : File.t)
        (options : ImporterOptions.t) {S : Type}
        (handle : forall eff : Effect, S -> Error + (Answer eff * S))
        (st st' : S) (yields : list Entry.t) :
  run handle (buildFileBatch None file options) st = inr (yields, st') ->
  (singleLeaf options yields <> None <->
   List.length (File.content file) = 1%nat
   /\ ImporterOptions.reduceSingleLeafToSelf options = true)
  /\ (forall group, incl group yields ->
        singleLeaf options group <> None ->
        List.length (File.content file) = 1%nat).
Proof.
  intros Hrun.
  destruct (buildFileBatch_yields handle file options st st' yields Hrun)
    as (delivered & -> & Hlen & Hunset & _).
  rewrite <- Hlen. rewrite batchYields_cases.
  destruct delivered as [|first [|second rest]].
  - split.
    + simpl. split; [congruence|]. intros [Habs _]. discriminate.
    + intros group Hincl. destruct group as [|entry others].
      * simpl. congruence.
      * destruct (Hincl entry (or_introl eq_refl)).
  - split.
    + simpl.
      destruct (ImporterOptions.reduceSingleLeafToSelf options); simpl.
      * split; [intros _; split; reflexivity|intros _; discriminate].
      * split; [intros Habs; now elim Habs|intros [_ Habs]; discriminate].
    + reflexivity.
  - assert (Hnone : forall group, incl group (first :: second :: rest) ->
                                  singleLeaf options group = None).
    { intros group Hincl. unfold singleLeaf.
      destruct group as [|entry [|other others]]; try reflexivity.
      rewrite Forall_forall in Hunset.
      now rewrite (Hunset entry (Hincl entry (or_introl eq_refl))). }
    split.
    + rewrite (Hnone _ (incl_refl _)). split; [congruence|].
      intros [Habs _]. discriminate.
    + intros group Hincl. rewrite (Hnone group Hincl). congruence.
Qed.

(** X7. The batcher neither drops, nor repeats, nor reorders, nor
    rewrites what it is given, whatever the buffer importer: the
    yielded descriptors are the delivered ones, one for one, with the
    same address, path, metadata and size; only the single flag of a
    lone result differs. *)
Theorem batch_changes_only_single (entries : list Entry.t) :
  Forall2 (fun entry yielded =>
             Entry.cid yielded = Entry.cid entry
             /\ Entry.path yielded = Entry.path entry
             /\ Entry.unixfs yielded = Entry.unixfs entry
             /\ Entry.size yielded = Entry.size entry
             /\ (Entry.single yielded <> Entry.single entry ->
                 entries = [entry] /\ Entry.single yielded = true))
          entries (batchYields entries).
Proof.
  rewrite batchYields_cases.
  assert (Hsame : forall others : list Entry.t,
            Forall2 (fun entry yielded =>
                       Entry.cid yielded = Entry.cid entry
                       /\ Entry.path yielded = Entry.path entry
                       /\ Entry.unixfs yielded = Entry.unixfs entry
                       /\ Entry.size yielded = Entry.size entry
                       /\ (Entry.single yielded <> Entry.single entry ->
                           entries = [entry] /\ Entry.single yielded = true))
                    others others).
  { induction others as [|entry others IH]; constructor; [|exact IH].
    do 4 (split; [reflexivity|]). intros Habs. now elim Habs. }
  destruct entries as [|first [|second rest]]; try apply Hsame.
  constructor; [|constructor].
  do 4 (split; [reflexivity|]). intros _. split; reflexivity.
Qed.

Lemma getsOf_app (log rest : list Effect) :
  getsOf (log ++ rest) = getsOf log ++ getsOf rest.
Proof. unfold getsOf. apply flat_map_app. Qed.

(** The log of one task: the report first, then the one persist. *)
Lemma leafTask_log {S : Type}
      (handle : forall eff : Effect, S -> Error + (Answer eff * S))
      (file : File.t) (options : ImporterOptions.t) (chunk : bytes) (st : S) :
  (exists rest,
      fst (runLog handle (leafTask file options chunk) st)
      = Progress (byteLength chunk) (File.path file) :: rest)
  /\ forall entry st',
       snd (runLog handle (leafTask file options chunk) st) = inr (entry, st') ->
       exists buffer,
         fst (runLog handle (leafTask file options chunk) st)
         = [Progress (byteLength chunk) (File.path file);
            Persist buffer (leafOpts options)]
         /\ (ImporterOptions.rawLeaves options = true -> buffer = chunk).
Proof.
  destruct (ImporterOptions.rawLeaves options) eqn:Hraw.
  - rewrite leafTask_raw by assumption.
    replace (PersistOptions.mk (Some mc.RAW) 1 (ImporterOptions.hasher options)
               (ImporterOptions.onlyHash options)) with (leafOpts options)
      by (unfold leafOpts; now rewrite Hraw).
    simpl.
    destruct (handle _ st) as [e|[[] st1]]; simpl;
      [split; [now eexists|discriminate]|].
    destruct (handle _ st1) as [e|[cid st2]]; simpl;
      (split; [now eexists|]); [discriminate|].
    intros entry st' _. now exists chunk.
  - rewrite leafTask_framed by assumption.
    replace (PersistOptions.mk (Some mc.DAG_PB) (ImporterOptions.cidVersion options)
               (ImporterOptions.hasher options) (ImporterOptions.onlyHash options))
      with (leafOpts options)
      by (unfold leafOpts; now rewrite Hraw).
    simpl.
    destruct (handle _ st) as [e|[[] st1]]; simpl;
      [split; [now eexists|discriminate]|].
    destruct (marshal _) as [e|data]; simpl;
      [split; [now eexists|discriminate]|].
    destruct (encode_prepare _) as [e|buffer]; simpl;
      [split; [now eexists|discriminate]|].
    destruct (handle _ st1) as [e|[cid st2]]; simpl;
      (split; [now eexists|]); [discriminate|].
    intros entry st' _. exists buffer. split; [reflexivity|discriminate].
Qed.

Lemma parallelBatch_log {S : Type}
      (handle : forall eff : Effect, S -> Error + (Answer eff * S))
      (file : File.t) (options : ImporterOptions.t) (size : Z)
      (chunks : list bytes) : forall st log delivered st',
  runLog handle (parallelBatch (map (leafTask file options) chunks) size) st
  = (log, inr (delivered, st')) ->
  reportsOf log = map (fun chunk => (byteLength chunk, File.path file)) chunks
  /\ List.length (persistsOf log) = List.length chunks
  /\ Forall (fun call => snd call = leafOpts options) (persistsOf log)
  /\ getsOf log = []
  /\ (ImporterOptions.rawLeaves options = true ->
      map fst (persistsOf log) = chunks).
Proof.
  induction chunks as [|chunk rest IH]; intros st log delivered st'.
  - simpl. intros [= <- _ _]. simpl. repeat split; try constructor.
  - cbn [parallelBatch map]. rewrite runLog_bind.
    destruct (leafTask_log handle file options chunk st) as [_ Htask].
    destruct (runLog handle (leafTask file options chunk) st)
      as [first [e|[entry st1]]]; [discriminate|].
    destruct (Htask entry st1 eq_refl) as (buffer & Hfirst & Hbuffer).
    simpl in Hfirst. subst first.
    rewrite runLog_bind.
    destruct (runLog handle (parallelBatch _ size) st1)
      as [others [e|[entries st2]]] eqn:Hrest; [discriminate|].
    simpl. intros [= <- _ _].
    destruct (IH _ _ _ _ Hrest) as (Hreports & Hcount & Hopts & Hgets & Hraw).
    rewrite app_nil_r. simpl.
    rewrite Hreports, Hcount, Hgets.
    split; [reflexivity|]. split; [reflexivity|].
    split; [now constructor|]. split; [reflexivity|].
    intros Hmode. now rewrite (Hbuffer Hmode), (Hraw Hmode).
Qed.

(** X8. What a successful import of a file's leaves does to the
    store.  Progress is reported once per chunk, in chunk order, with
    the chunk's length and the file's path, so that the reported total
    is the length of the file; there is one call of persist per chunk,
    each with the options of the leaf builder, and no read.  With raw
    leaves the buffers persisted are the chunks themselves, in
    order. *)
Theorem import_operations (file : File.t) (options : ImporterOptions.t)
        {S : Type} (handle : forall eff : Effect, S -> Error + (Answer eff * S))
        (st st' : S) (log : list Effect) (yields : list Entry.t) :
  runLog handle (buildFileBatch None file options) st
  = (log, inr (yields, st')) ->
  reportsOf log
  = map (fun chunk => (byteLength chunk, File.path file)) (File.content file)
  /\ total (map fst (reportsOf log)) = byteLength (List.concat (File.content file))
  /\ List.length (persistsOf log) = List.length (File.content file)
  /\ Forall (fun call => snd call = leafOpts options) (persistsOf log)
  /\ getsOf log = []
  /\ (ImporterOptions.rawLeaves options = true ->
      map fst (persistsOf log) = File.content file).
Proof.
  unfold buildFileBatch, bufferImporter. rewrite runLog_bind.
  destruct (runLog handle (parallelBatch _ _) st)
    as [batch [e|[delivered st1]]] eqn:Hbatch; [discriminate|].
  simpl. intros [= <- _ _]. rewrite app_nil_r.
  destruct (parallelBatch_log _ _ _ _ _ _ _ _ _ Hbatch)
    as (Hreports & Hcount & Hopts & Hgets & Hraw).
  split; [exact Hreports|].
  split; [|now repeat split].
  rewrite Hreports, map_map. simpl. apply total_byteLength.
Qed.

(** X9. A file of one chunk, imported with raw leaves and the
    single-leaf optimisation and declaring neither mtime nor mode,
    costs one report and one write: the chunk is persisted as it is
    and the root is that leaf, under the address the store answered
    and with the chunk's length as its size.  A file without chunks
    reports nothing and persists one node, a parent without links. *)
Theorem small_file_import (file : File.t) (options : ImporterOptions.t)
        {S : Type} (handle : forall eff : Effect, S -> Error + (Answer eff * S))
        (st : S) :
  (forall chunk,
      File.content file = [chunk] ->
      ImporterOptions.rawLeaves options = true ->
      ImporterOptions.reduceSingleLeafToSelf options = true ->
      File.mtime file = None -> File.mode file = None ->
      let report := Progress (byteLength chunk) (File.path file) in
      let write := Persist chunk
                     (PersistOptions.mk (Some mc.RAW) 1
                        (ImporterOptions.hasher options)
                        (ImporterOptions.onlyHash options)) in
      runLog handle (batchThenReduce None file options) st =
        match handle report st with
        | inl e => ([report], inl e)
        | inr (_, st1) =>
            match handle write st1 with
            | inl e => ([report; write], inl e)
            | inr (cid, st2) =>
                ([report; write],
                 inr ({| returned := Entry.mk cid (File.path file) None
                                       (byteLength chunk) false;
                         leaves_after := [Entry.mk cid None None
                                            (byteLength chunk) true] |}, st2))
            end
        end)
  /\ (File.content file = [] ->
      batchThenReduce None file options =
        buildParent file options [] (parentMeta file []) [] 0).
Proof.
  split.
  - intros chunk Hcontent Hraw Hopt Hmtime Hmode report write.
    subst report write.
    unfold batchThenReduce, buildFileBatch, bufferImporter.
    rewrite Hcontent. cbn [map parallelBatch].
    rewrite leafTask_raw by assumption. simpl.
    destruct (handle _ st) as [e|[[] st1]]; [reflexivity|].
    destruct (handle _ st1) as [e|[cid st2]]; [reflexivity|].
    unfold reducer, singleLeaf, batchYields. simpl.
    rewrite Hopt, Hmtime, Hmode. simpl.
    now rewrite andb_false_r.
  - intros Hcontent.
    unfold batchThenReduce, buildFileBatch, bufferImporter.
    rewrite Hcontent. reflexivity.
Qed.


Lemma strategy_eqb (key name : string) :
  (key =? name)%string = true <-> key = name.
Proof. apply String.eqb_eq. Qed.


End Pipeline.

(** ** The properties on concrete inputs *)

(** C1 at four children, one of them dropped: the parent serialises to
    four bytes and the retained children weigh 3 + 10 + 120. *)
Lemma reducer_size_invariant_witness :
  generalPath sample_options sample_children
  /\ sumSizes (retained sample_fileSize sample_children) = 133
  /\ exists r store,
       run sample_store
         (reducer sample_marshal sample_fileSize sample_encode
            sample_file sample_options sample_children) []
       = inr (r, store)
       /\ Entry.size (returned r) = 4 + 133.
Proof.
  assert (Hgeneral : generalPath sample_options sample_children)
    by (left; simpl; discriminate).
  split; [exact Hgeneral|]. split; [reflexivity|].
  destruct (reducer_size_invariant sample_marshal sample_fileSize sample_encode
              sample_file sample_options sample_children Hgeneral) as [-> _].
  eexists _, _. split; reflexivity.
Defined.

(** C4 at the same children: the empty placeholder is the one child
    left out. *)
Lemma reducer_retains_contributing_children_witness :
  generalPath sample_options sample_children
  /\ retained sample_fileSize sample_children = [bare_leaf; framed_leaf; subtree]
  /\ (In phantom_leaf (retained sample_fileSize sample_children) <->
      In phantom_leaf sample_children
      /\ contributesContent sample_fileSize phantom_leaf).
Proof.
  assert (Hgeneral : generalPath sample_options sample_children)
    by (left; simpl; discriminate).
  split; [exact Hgeneral|]. split; [reflexivity|].
  apply (reducer_retains_contributing_children sample_marshal sample_fileSize
           sample_encode sample_file sample_options sample_children Hgeneral).
Defined.

(** C5 at the same children: block sizes 3, 4 and 7 next to links of
    total sizes 3, 10 and 120. *)
Lemma reducer_block_sizes_and_links_witness :
  generalPath sample_options sample_children
  /\ exists meta links,
       reducer sample_marshal sample_fileSize sample_encode
         sample_file sample_options sample_children
       = buildParent sample_marshal sample_encode sample_file sample_options
           sample_children meta links 133
       /\ UnixFS.blockSizes meta = [3; 4; 7]
       /\ map Tsize links = [3; 10; 120]
       /\ map Hash links = map Entry.cid [bare_leaf; framed_leaf; subtree].
Proof.
  assert (Hgeneral : generalPath sample_options sample_children)
    by (left; simpl; discriminate).
  split; [exact Hgeneral|].
  destruct (reducer_block_sizes_and_links sample_marshal sample_fileSize
              sample_encode sample_file sample_options sample_children Hgeneral)
    as [(meta & links & Heq & Hsizes & Hlinks) _].
  exists meta, links. split; [exact Heq|].
  split; [exact Hsizes|]. rewrite Hlinks. split; reflexivity.
Defined.

(** C2 at a sole framed leaf of a file that declares a modification
    time. *)
Lemma reducer_single_leaf_promotion_witness :
  Entry.single single_framed = true
  /\ ImporterOptions.reduceSingleLeafToSelf sample_options = true
  /\ isBare single_framed = false
  /\ run sample_store
       (reducer sample_marshal sample_fileSize sample_encode
          dated_file sample_options [single_framed]) []
     = inr ({| returned := Entry.mk (Entry.cid single_framed)
                             (Some "b.txt"%string)
                             (Entry.unixfs single_framed) 2 false;
               leaves_after := [single_framed] |}, []).
Proof.
  repeat (split; [reflexivity|]).
  destruct (reducer_single_leaf_promotion sample_marshal sample_fileSize
              sample_encode dated_file sample_options single_framed
              eq_refl eq_refl (or_intror eq_refl)) as [-> _].
  reflexivity.
Defined.

(** C3 at a sole bare leaf of the same file: the leaf is fetched,
    framed and persisted again, and the descriptor carries the dag-pb
    address of the two framed bytes. *)
Lemma reducer_single_leaf_upgrade_witness :
  Entry.single single_bare = true
  /\ ImporterOptions.reduceSingleLeafToSelf sample_options = true
  /\ isBare single_bare = true
  /\ File.mtime dated_file <> None
  /\ exists r,
       run sample_store
         (reducer sample_marshal sample_fileSize sample_encode
            dated_file sample_options [single_bare]) []
       = inr (r, [[x08; x78]])
       /\ Entry.cid (returned r) = CID.create 0 mc.DAG_PB [x08; x78]
       /\ Entry.size (returned r) = 2
       /\ map Entry.cid (leaves_after r) = [CID.create 0 mc.DAG_PB [x08; x78]].
Proof.
  repeat (split; [reflexivity|]).
  assert (Hdated : File.mtime dated_file <> None) by discriminate.
  split; [exact Hdated|].
  rewrite (reducer_single_leaf_upgrade sample_marshal sample_fileSize
             sample_encode dated_file sample_options single_bare
             eq_refl eq_refl eq_refl (or_introl Hdated)).
  eexists. repeat split.
Defined.

(** C9 as stated fails: a sole child that claims metadata and has
    negative length fields is returned as the root, and no error is
    raised. *)
Lemma reducer_accounting_counterexample :
  Entry.unixfs inconsistent_leaf
    = Some (UnixFS.mk "file" None None None [-5])
  /\ Entry.size inconsistent_leaf < 0
  /\ sample_fileSize (UnixFS.mk "file" None None None [-5]) < 0
  /\ reducer sample_marshal sample_fileSize sample_encode
       sample_file sample_options [inconsistent_leaf]
     = Resolve {| returned := Entry.mk (Entry.cid inconsistent_leaf)
                                (Some "a.txt"%string)
                                (Entry.unixfs inconsistent_leaf) (-1) false;
                  leaves_after := [inconsistent_leaf] |}.
Proof. repeat split. Qed.

(** C9 at a store that refuses writes: the reduction fails with the
    store's error. *)
Lemma reducer_failures_are_propagated_witness :
  generalPath sample_options sample_children
  /\ run failing_store
       (reducer sample_marshal sample_fileSize sample_encode
          sample_file sample_options sample_children) []
     = inl "StoreError"%string.
Proof.
  assert (Hgeneral : generalPath sample_options sample_children)
    by (left; simpl; discriminate).
  split; [exact Hgeneral|].
  destruct (reducer_failures_are_propagated sample_marshal sample_fileSize
              sample_encode sample_file sample_options sample_children
              failing_store []) as (_ & Hpersist & _).
  apply (Hpersist Hgeneral [x08] [x12; x12; x12; x08]); reflexivity.
Defined.

(** C7 at a chunk of one byte, with address version 0 configured: the
    bare leaf goes out with version 1. *)
Lemma leaf_persist_address_version_witness :
  ImporterOptions.rawLeaves raw_leaves_options = true
  /\ ImporterOptions.cidVersion raw_leaves_options = 0
  /\ Issues (leafTask sample_marshal sample_encode sample_file
               raw_leaves_options [x61])
       (Persist [x61] (PersistOptions.mk (Some mc.RAW) 1 sha256 false))
  /\ Issues (leafTask sample_marshal sample_encode sample_file
               sample_options [x61])
       (Persist [x08; x61] (PersistOptions.mk (Some mc.DAG_PB) 0 sha256 false)).
Proof.
  repeat (split; [reflexivity|]).
  destruct (leaf_persist_address_version sample_marshal sample_encode
              sample_file raw_leaves_options [x61]) as [Hraw _].
  destruct (leaf_persist_address_version sample_marshal sample_encode
              sample_file sample_options [x61]) as [_ Hframed].
  split.
  - exact (proj1 (Hraw eq_refl)).
  - exact (proj1 (Hframed eq_refl) [x08; x61] [x08; x61] eq_refl eq_refl).
Defined.

(** C8 as stated fails: with [leafType] set to raw the metadata of a
    framed leaf declares the type raw. *)
Lemma leaf_type_counterexample :
  ImporterOptions.rawLeaves raw_type_options = false
  /\ exists entry meta store,
       run sample_store
         (leafTask sample_marshal sample_encode sample_file
            raw_type_options [x61]) []
       = inr (entry, store)
       /\ Entry.unixfs entry = Some meta
       /\ UnixFS.type meta = "raw"%string
       /\ UnixFS.type meta <> "file"%string.
Proof.
  split; [reflexivity|].
  eexists _, _, _. repeat split. discriminate.
Qed.

(** C8 at the same inputs and at the default options. *)
Lemma leaf_descriptor_witness :
  ImporterOptions.rawLeaves sample_options = false
  /\ run sample_store
       (leafTask sample_marshal sample_encode sample_file sample_options [x61]) []
     = inr (Entry.mk (CID.create 0 mc.DAG_PB [x08; x61]) None
              (Some (UnixFS.mk "file" (Some [x61]) None None [])) 2 false,
            [[x08; x61]])
  /\ run sample_store
       (leafTask sample_marshal sample_encode sample_file raw_leaves_options [x61]) []
     = inr (Entry.mk (CID.create 1 mc.RAW [x61]) None None 1 false, [[x61]]).
Proof.
  split; [reflexivity|].
  destruct (leaf_descriptor sample_marshal sample_encode sample_file
              sample_options [x61]) as [Hframed _].
  destruct (leaf_descriptor sample_marshal sample_encode sample_file
              raw_leaves_options [x61]) as [_ Hraw].
  destruct (Hframed eq_refl) as (meta & Htype & Hdata & Hmtime & Hmode & Hsizes & ->).
  rewrite (Hraw eq_refl).
  destruct meta as [type data mtime mode sizes]. simpl in *. subst.
  split; reflexivity.
Defined.

(** C6 as stated fails: a custom buffer importer may deliver results
    that already carry the flag; with two of them the batcher yields
    both as they came, flag included. *)
Lemma batch_single_counterexample :
  exists entries store yielded,
    run sample_store
      (parallelBatch (flagging_importer sample_file sample_options)
         (ImporterOptions.blockWriteConcurrency sample_options)) []
    = inr (entries, store)
    /\ List.length entries = 2%nat
    /\ run sample_store
         (buildFileBatch sample_marshal sample_encode (Some flagging_importer)
            sample_file sample_options) []
       = inr (batchYields entries, store)
    /\ In yielded (batchYields entries)
    /\ Entry.single yielded = true
    /\ List.length entries <> 1%nat.
Proof.
  eexists _, _, _. split; [reflexivity|]. split; [reflexivity|].
  split; [reflexivity|]. split; [left; reflexivity|].
  split; [reflexivity|discriminate].
Qed.

(** C6 at two results that arrive without the flag, and at one. *)
Lemma batch_order_and_single_witness :
  Forall (fun entry => Entry.single entry = false) [bare_leaf; framed_leaf]
  /\ batchYields [bare_leaf; framed_leaf] = [bare_leaf; framed_leaf]
  /\ batchYields [bare_leaf] = [Entry.set_single bare_leaf true]
  /\ (Entry.single bare_leaf = true <-> List.length [bare_leaf; framed_leaf] = 1%nat).
Proof.
  assert (Hunset : Forall (fun entry => Entry.single entry = false)
                     [bare_leaf; framed_leaf])
    by (repeat constructor).
  split; [exact Hunset|].
  split; [apply (batch_order_and_single sample_marshal sample_encode
                  [bare_leaf; framed_leaf])|].
  split; [apply (batch_order_and_single sample_marshal sample_encode [bare_leaf])|].
  destruct (batch_order_and_single sample_marshal sample_encode
              [bare_leaf; framed_leaf])
    as (_ & _ & _ & _ & Hflag & _ & _).
  apply (Hflag Hunset). left. reflexivity.
Defined.

(** ** More properties on concrete inputs *)

Lemma sample_store_honours : honoursCodec sample_store.
Proof.
  intros buffer opts st cid st' codec. simpl.
  intros [= <- _] ->. reflexivity.
Qed.

(** X2 at the four sample children: the block sizes 3, 4 and 7 add up
    to the contributions 3, 0, 4 and 7 of all four. *)
Lemma reducer_block_sizes_total_witness :
  generalPath sample_options sample_children
  /\ total (map (logicalContribution sample_fileSize) sample_children) = 14
  /\ exists meta links,
       reducer sample_marshal sample_fileSize sample_encode
         sample_file sample_options sample_children
       = buildParent sample_marshal sample_encode sample_file sample_options
           sample_children meta links 133
       /\ total (UnixFS.blockSizes meta) = 14.
Proof.
  assert (Hgeneral : generalPath sample_options sample_children)
    by (left; simpl; discriminate).
  split; [exact Hgeneral|]. split; [reflexivity|].
  destruct (reducer_block_sizes_total sample_marshal sample_fileSize
              sample_encode sample_file sample_options sample_children
              Hgeneral)
    as [(meta & links & Heq & Htotal) _].
  exists meta, links. split; [exact Heq|exact Htotal].
Defined.

(** X3 at the four sample children. *)
Lemma reducer_result_witness :
  exists r store,
    run sample_store
      (reducer sample_marshal sample_fileSize sample_encode
         sample_file sample_options sample_children) []
    = inr (r, store)
    /\ Entry.path (returned r) = Some "a.txt"%string
    /\ Entry.single (returned r) = false
    /\ Entry.size (returned r) = 137.
Proof.
  eexists _, _. split; [reflexivity|].
  destruct (reducer_result sample_marshal sample_fileSize sample_encode
              sample_file sample_options sample_children sample_store
              [] _ _ eq_refl) as (Hpath & Hflag & _).
  split; [exact Hpath|]. split; [exact Hflag|reflexivity].
Defined.

(** X4 at the sample file of two chunks: block sizes 3 and 4. *)
Lemma import_block_sizes_witness :
  honoursCodec sample_store
  /\ exists yields store,
       run sample_store
         (buildFileBatch sample_marshal sample_encode None
            sample_file sample_options) []
       = inr (yields, store)
       /\ generalPath sample_options yields
       /\ reducer sample_marshal sample_fileSize sample_encode
            sample_file sample_options yields
          = buildParent sample_marshal sample_encode sample_file sample_options
              yields (parentMeta sample_file [3; 4])
              (map linkOf (retained sample_fileSize yields))
              (sumSizes (retained sample_fileSize yields)).
Proof.
  split; [exact sample_store_honours|].
  eexists _, _. split; [reflexivity|].
  assert (Hgeneral : generalPath sample_options
                       (batchYields
                          [Entry.mk (CID.create 0 mc.DAG_PB [x08; x61; x62; x63])
                             None
                             (Some (UnixFS.mk "file" (Some [x61; x62; x63])
                                      None None [])) 4 false;
                           Entry.mk (CID.create 0 mc.DAG_PB
                                       [x08; x64; x65; x66; x67])
                             None
                             (Some (UnixFS.mk "file" (Some [x64; x65; x66; x67])
                                      None None [])) 5 false]))
    by (left; simpl; discriminate).
  split; [exact Hgeneral|].
  apply (import_block_sizes sample_marshal sample_fileSize sample_encode
           sample_file sample_options sample_store [] _ _
           sample_store_honours eq_refl Hgeneral).
Defined.

(** X5 at the dated file with framed leaves: the promoted leaf carries
    the file's modification time. *)
Lemma root_keeps_mtime_and_mode_witness :
  File.mtime dated_file <> None
  /\ exists r store meta,
       run sample_store
         (batchThenReduce sample_marshal sample_fileSize sample_encode None
            dated_file sample_options) []
       = inr (r, store)
       /\ Entry.unixfs (returned r) = Some meta
       /\ UnixFS.mtime meta = Some {| secs := 1600000000; nsecs := None |}.
Proof.
  assert (Hdated : File.mtime dated_file <> None) by discriminate.
  split; [exact Hdated|].
  destruct (root_keeps_mtime_and_mode sample_marshal sample_fileSize
              sample_encode dated_file sample_options sample_store [] _ _
              sample_store_honours (or_introl Hdated) eq_refl)
    as (meta & Hmeta & Hmtime & _).
  eexists _, _, meta. split; [reflexivity|]. split; [exact Hmeta|exact Hmtime].
Defined.

(** X6 at the sample file of two chunks: no promotion. *)
Lemma promotion_only_for_one_chunk_witness :
  exists yields store,
    run sample_store
      (buildFileBatch sample_marshal sample_encode None
         sample_file sample_options) []
    = inr (yields, store)
    /\ (singleLeaf sample_options yields <> None <->
        List.length (File.content sample_file) = 1%nat
        /\ ImporterOptions.reduceSingleLeafToSelf sample_options = true).
Proof.
  eexists _, _. split; [reflexivity|].
  apply (promotion_only_for_one_chunk sample_marshal sample_encode
           sample_file sample_options sample_store [] _ _ eq_refl).
Defined.

(** X8 at the sample file: two reports, of 3 and of 4 bytes. *)
Lemma import_operations_witness :
  exists log yields store,
    runLog sample_store
      (buildFileBatch sample_marshal sample_encode None
         sample_file sample_options) []
    = (log, inr (yields, store))
    /\ reportsOf log = [(3, Some "a.txt"%string); (4, Some "a.txt"%string)]
    /\ List.length (persistsOf log) = 2%nat.
Proof.
  eexists _, _, _. split; [reflexivity|].
  destruct (import_operations sample_marshal sample_encode
              sample_file sample_options sample_store [] _ _ _ eq_refl)
    as (Hreports & _ & Hcount & _).
  split; [exact Hreports|exact Hcount].
Defined.

(** X9 at a file of the one byte x, and at the empty file. *)
Lemma small_file_import_witness :
  runLog sample_store
    (batchThenReduce sample_marshal sample_fileSize sample_encode None
       tiny_file raw_leaves_options) []
  = ([Progress 1 (Some "c.txt"%string);
      Persist [x78] (PersistOptions.mk (Some mc.RAW) 1 sha256 false)],
     inr ({| returned := Entry.mk (CID.create 1 mc.RAW [x78])
                           (Some "c.txt"%string) None 1 false;
             leaves_after := [Entry.mk (CID.create 1 mc.RAW [x78])
                                None None 1 true] |},
          [[x78]]))
  /\ batchThenReduce sample_marshal sample_fileSize sample_encode None
       empty_file sample_options
     = buildParent sample_marshal sample_encode empty_file sample_options []
         (parentMeta empty_file []) [] 0.
Proof.
  destruct (small_file_import sample_marshal sample_fileSize sample_encode
              tiny_file raw_leaves_options sample_store [])
    as [Hone _].
  destruct (small_file_import sample_marshal sample_fileSize sample_encode
              empty_file sample_options sample_store [])
    as [_ Hnone].
  split.
  - exact (Hone [x78] eq_refl eq_refl eq_refl eq_refl eq_refl).
  - exact (Hnone eq_refl).
Defined.


